(** * Hybrid search demo: filter construction, SDK search and ingestion

    A shallow embedding of [hybrid_search.py] ([create_filter],
    [generate_embeddings], [search_couchbase]) and of the ingestion script
    [ingest.py] (the loop that embeds and upserts every row).

    Python values are modelled by [pyval]; dictionaries keep their insertion
    order, as Python's do.  A call that may raise returns a [result].  The
    remote services (embedding model, search index, collection) and the
    random source of [uuid.uuid4] are oracles in an [env]; every call of one
    of them is recorded in the [world]. *)

From Stdlib Require Import ZArith Floats.SpecFloat.
From stdpp Require Import base option list strings gmap.

Open Scope string_scope.
Open Scope list_scope.

(** ** Python values *)

#[local] Set Warnings "-register-all".

Inductive pyval : Type :=
| PyNone
| PyBool (b : bool)
| PyInt (z : Z)
| PyFloat (f : spec_float)
| PyStr (s : string)
| PyTuple (l : list pyval)
| PyList (l : list pyval)
| PyDict (d : list (string * pyval)).

(** An exception: its class and its message.  The exceptions of the model
    are instances of [Exception], the ones an [except Exception] clause
    catches; [KeyboardInterrupt] and [SystemExit], which end the interpreter
    from outside the program, are not part of it. *)
Record exn : Type := Exn { exn_class : string; exn_msg : string }.

Inductive result (A : Type) : Type :=
| Ok (a : A)
| Raise (e : exn).
Arguments Ok {A} a.
Arguments Raise {A} e.

#[global] Instance result_ret : MRet result := fun _ a => Ok a.
#[global] Instance result_bind : MBind result := fun _ _ f m =>
  match m with
  | Ok a => f a
  | Raise e => Raise e
  end.

(** [bool(v)]: the truth value Python gives to [v] in an [if]. *)
Definition float_is_zero (f : spec_float) : bool :=
  match f with
  | S754_zero _ => true
  | _ => false
  end.

Definition truthy (v : pyval) : bool :=
  match v with
  | PyNone => false
  | PyBool b => b
  | PyInt z => negb (z =? 0)%Z
  | PyFloat f => negb (float_is_zero f)
  | PyStr s => negb (String.eqb s "")
  | PyTuple l => negb (Nat.eqb (length l) 0)
  | PyList l => negb (Nat.eqb (length l) 0)
  | PyDict d => negb (Nat.eqb (length d) 0)
  end.

Definition IndexError (what : string) : exn :=
  Exn "IndexError" (String.append what " index out of range").
Definition TypeError : exn := Exn "TypeError" "object is not subscriptable".
Definition KeyError (k : string) : exn := Exn "KeyError" k.

(** [l[i]] on a sequence of length [length l]: a negative index counts from
    the end, an index outside the sequence raises. *)
Definition seq_index {A : Type} (what : string) (l : list A) (i : Z) : result A :=
  let j := (if i <? 0 then i + Z.of_nat (length l) else i)%Z in
  if (j <? 0)%Z then Raise (IndexError what)
  else match l !! Z.to_nat j with
       | Some x => Ok x
       | None => Raise (IndexError what)
       end.

Fixpoint chars (s : string) : list string :=
  match s with
  | EmptyString => []
  | String c s' => String c EmptyString :: chars s'
  end.

(** [v[i]] for an integer [i]. *)
Definition py_getitem (v : pyval) (i : Z) : result pyval :=
  match v with
  | PyTuple l => seq_index "tuple" l i
  | PyList l => seq_index "list" l i
  | PyStr s => c ← seq_index "string" (chars s) i; Ok (PyStr c)
  | PyDict _ => Raise (KeyError "int")
  | _ => Raise TypeError
  end.

(** ** Dictionaries, in insertion order *)

Fixpoint dict_get (d : list (string * pyval)) (k : string) : option pyval :=
  match d with
  | [] => None
  | (k', v) :: d' => if String.eqb k' k then Some v else dict_get d' k
  end.

(** [d[k] = v]: an existing key keeps its place, a new one goes last. *)
Fixpoint dict_set (d : list (string * pyval)) (k : string) (v : pyval)
  : list (string * pyval) :=
  match d with
  | [] => [(k, v)]
  | (k', v') :: d' =>
      if String.eqb k' k then (k, v) :: d' else (k', v') :: dict_set d' k v
  end.

(** [d[k]] as an expression: a missing key raises. *)
Definition dict_item (d : list (string * pyval)) (k : string) : result pyval :=
  match dict_get d k with
  | Some v => Ok v
  | None => Raise (KeyError k)
  end.

(** ** [create_filter] (hybrid_search.py, lines 83-120)

    The [st.cache_resource] decorator memoises the function on its
    arguments; the function is deterministic and reads nothing else, so the
    cached value is the computed one. *)

Definition year_field : string := "Released_Year".
Definition rating_field : string := "IMDB_Rating".
Definition title_field : string := "Series_Title".

Definition year_query (lo hi : pyval) : pyval :=
  PyDict [("min", lo); ("max", hi);
          ("inclusive_min", PyBool true); ("inclusive_max", PyBool true);
          ("field", PyStr year_field)].

Definition rating_query (rating : pyval) : pyval :=
  PyDict [("min", rating); ("inclusive_min", PyBool false);
          ("field", PyStr rating_field)].

Definition title_query (title : pyval) : pyval :=
  PyDict [("match_phrase", title); ("field", PyStr title_field)].

Definition create_filter (year_range rating search_in_title title : pyval)
  : result pyval :=
  let filter : list (string * pyval) := [] in
  let filter_operations : list pyval := [] in
  filter_operations ←
    (if truthy year_range then
       lo ← py_getitem year_range 0;
       hi ← py_getitem year_range 1;
       Ok (filter_operations ++ [year_query lo hi])
     else Ok filter_operations);
  let filter_operations :=
    if truthy rating then filter_operations ++ [rating_query rating]
    else filter_operations in
  let filter_operations :=
    if truthy search_in_title then filter_operations ++ [title_query title]
    else filter_operations in
  Ok (PyDict (dict_set filter "query"
                (PyDict [("conjuncts", PyList filter_operations)]))).

(** Reading a filter back: the list under ["query"]["conjuncts"], and the
    entries of one conjunct. *)
Definition conjuncts (filter : pyval) : option (list pyval) :=
  match filter with
  | PyDict d =>
      match dict_get d "query" with
      | Some (PyDict q) =>
          match dict_get q "conjuncts" with
          | Some (PyList l) => Some l
          | _ => None
          end
      | _ => None
      end
  | _ => None
  end.

Definition entry (conjunct : pyval) (k : string) : option pyval :=
  match conjunct with
  | PyDict d => dict_get d k
  | _ => None
  end.

Definition on_field (f : string) (conjunct : pyval) : bool :=
  match entry conjunct "field" with
  | Some (PyStr g) => String.eqb g f
  | _ => false
  end.

(** Modelled from the spec: how the search index reads a predicate.  The
    index is a remote service, not part of the repository; the spec gives
    the reading: the conjuncts are combined by AND, a numeric range bounds
    the document's field from below by [min] and from above by [max], each
    bound inclusive or exclusive by its flag, and an absent bound does not
    constrain.  The order on numbers and the phrase test belong to the index
    and stay abstract. *)
Record index_reading : Type := {
  num_lt : pyval -> pyval -> bool;
  num_le : pyval -> pyval -> bool;
  phrase_in : pyval -> pyval -> bool
}.

Definition flag (conjunct : pyval) (k : string) (default : bool) : bool :=
  match entry conjunct k with
  | Some (PyBool b) => b
  | _ => default
  end.

Definition range_holds (I : index_reading) (conjunct x : pyval) : bool :=
  match entry conjunct "min" with
  | None => true
  | Some lo =>
      if flag conjunct "inclusive_min" true then num_le I lo x else num_lt I lo x
  end
  &&
  match entry conjunct "max" with
  | None => true
  | Some hi =>
      if flag conjunct "inclusive_max" false then num_le I x hi else num_lt I x hi
  end.

Definition clause_holds (I : index_reading) (doc : list (string * pyval))
    (conjunct : pyval) : bool :=
  match entry conjunct "field" with
  | Some (PyStr f) =>
      match dict_get doc f with
      | Some x =>
          match entry conjunct "match_phrase" with
          | Some phrase => phrase_in I x phrase
          | None => range_holds I conjunct x
          end
      | None => false
      end
  | _ => false
  end.

Definition matches (I : index_reading) (doc : list (string * pyval))
    (filter : pyval) : bool :=
  match conjuncts filter with
  | Some l => forallb (clause_holds I doc) l
  | None => false
  end.

(** ** The services the scripts talk to *)

(** [VectorQuery(field, vector, num_candidates)] wrapped in a
    [SearchRequest], and [SearchOptions(limit, fields, raw)]. *)
Record search_request : Type := SearchRequest {
  vq_field : string;
  vq_vector : pyval;
  vq_num_candidates : Z
}.

Record search_options : Type := SearchOptions {
  opt_limit : Z;
  opt_fields : list string;
  opt_raw : pyval
}.

(** One row of a search result: the attributes the code reads. *)
Record search_row : Type := SearchRow {
  row_fields : pyval;
  row_score : spec_float
}.

(** What [db_scope.search(...)] and the iteration of [search_iter.rows()]
    do together: rows are yielded, then the iteration either stops or
    raises.  A search that fails at the call is a stream that raises before
    its first row; both happen inside the same [try]. *)
Record row_stream : Type := RowStream {
  yielded : list search_row;
  failure : option exn
}.

Inductive event : Type :=
| EmbeddingsCreate (input : pyval) (model : string)
| ScopeSearch (index_name : string) (req : search_request) (opts : search_options)
| Uuid4
| Upsert (doc_id : string) (doc : pyval)
| Print (msg : string) (e : option exn).

(** The replies of the outside world.  A remote reply may depend on the
    moment of the call (the number of events before it) and on the
    arguments; a uuid depends on nothing but the number of earlier draws.
    The SDK's constructor of a vector query runs locally and may refuse its
    arguments. *)
Record env : Type := {
  embeddings_reply : nat -> pyval -> string -> result (list pyval);
  vector_query_check : string -> pyval -> Z -> option exn;
  search_reply : nat -> string -> search_request -> search_options -> row_stream;
  uuid4_hex : nat -> string;
  upsert_reply : nat -> string -> pyval -> option exn
}.

Record world : Type := World {
  trace : list event;
  draws : nat;
  collection : gmap string pyval
}.

Definition record_event (ev : event) (w : world) : world :=
  World (trace w ++ [ev]) (draws w) (collection w).

(** Computations that call the services: they may raise, and the world
    keeps what happened before the exception. *)
Definition M (A : Type) : Type := world -> result A * world.

#[global] Instance M_ret : MRet M := fun _ a w => (Ok a, w).
#[global] Instance M_bind : MBind M := fun _ _ f m w =>
  match m w with
  | (Ok a, w') => f a w'
  | (Raise e, w') => (Raise e, w')
  end.

Definition lift {A : Type} (r : result A) : M A := fun w => (r, w).

(** [try: body / except Exception as e: handler e]. *)
Definition try_except {A : Type} (body : M A) (handler : exn -> M A) : M A :=
  fun w =>
    match body w with
    | (Ok a, w') => (Ok a, w')
    | (Raise e, w') => handler e w'
    end.

Definition embeddings_create (E : env) (input : pyval) (model : string)
  : M (list pyval) :=
  fun w => (embeddings_reply E (length (trace w)) input model,
            record_event (EmbeddingsCreate input model) w).

Definition scope_search (E : env) (index_name : string)
    (req : search_request) (opts : search_options) : M row_stream :=
  fun w => (Ok (search_reply E (length (trace w)) index_name req opts),
            record_event (ScopeSearch index_name req opts) w).

Definition uuid4 (E : env) : M string :=
  fun w => (Ok (uuid4_hex E (draws w)),
            World (trace w ++ [Uuid4]) (S (draws w)) (collection w)).

Definition collection_upsert (E : env) (doc_id : string) (doc : pyval) : M unit :=
  fun w =>
    match upsert_reply E (length (trace w)) doc_id doc with
    | Some e => (Raise e, record_event (Upsert doc_id doc) w)
    | None => (Ok tt, World (trace w ++ [Upsert doc_id doc]) (draws w)
                            (<[doc_id := doc]> (collection w)))
    end.

Definition print (msg : string) (e : option exn) : M unit :=
  fun w => (Ok tt, record_event (Print msg e) w).

(** ** [generate_embeddings] (both files): [response.data[0].embedding] *)
Definition generate_embeddings (E : env) (model : string) (input_data : pyval)
  : M pyval :=
  data ← embeddings_create E input_data model;
  lift (seq_index "list" data 0).

(** ** [search_couchbase] (hybrid_search.py, lines 123-169) *)

Definition EMBEDDING_MODEL : string := "text-embedding-3-small".

Definition vector_query (E : env) (embedding_key : string) (vector : pyval)
    (k : Z) : M search_request :=
  match vector_query_check E embedding_key vector k with
  | Some e => lift (Raise e)
  | None => mret (SearchRequest embedding_key vector k)
  end.

(** The [for row in search_iter.rows()] loop: one pair is appended per row
    yielded, and an exception of the iterator ends the loop. *)
Fixpoint parse_rows (rows : list search_row)
    (docs_with_score : list (pyval * spec_float)) : list (pyval * spec_float) :=
  match rows with
  | [] => docs_with_score
  | row :: rows' =>
      let score := row_score row in
      parse_rows rows' (docs_with_score ++ [(row_fields row, score)])
  end.

Definition search_couchbase (E : env) (index_name embedding_key search_text : string)
    (k : Z) (fields : list string) (search_options : pyval)
  : M (list (pyval * spec_float)) :=
  search_embedding ← generate_embeddings E EMBEDDING_MODEL (PyStr search_text);
  search_req ← vector_query E embedding_key search_embedding k;
  let docs_with_score := [] in
  try_except
    (search_iter ← scope_search E index_name search_req
                     (SearchOptions k fields search_options);
     let docs_with_score := parse_rows (yielded search_iter) docs_with_score in
     match failure search_iter with
     | Some e => lift (Raise e)
     | None => mret docs_with_score
     end)
    (fun e => lift (Raise e)).

(** ** The ingestion loop (ingest.py, lines 83-91) *)

Definition ingest_row (E : env) (model : string) (row : list (string * pyval))
  : M unit :=
  overview ← lift (dict_item row "Overview");
  embedding ← generate_embeddings E model overview;
  let row := dict_set row "Overview_embedding" embedding in
  doc_id ← uuid4 E;
  collection_upsert E doc_id (PyDict row).

Fixpoint ingest_loop (E : env) (model : string)
    (data_in_dict : list (list (string * pyval))) : M unit :=
  match data_in_dict with
  | [] => mret tt
  | row :: rest => _ ← ingest_row E model row; ingest_loop E model rest
  end.

(** The [try] around the loop and its handler, which prints and goes on to
    the end of the script.  Connecting and reading the dataset come before
    the loop in the same [try]; the model starts where the rows exist. *)
Definition ingest (E : env) (model : string)
    (data_in_dict : list (list (string * pyval))) : M unit :=
  try_except
    (_ ← print "Ingesting Data..." None; ingest_loop E model data_in_dict)
    (fun e => print "Error while ingesting data" (Some e)).

(** ** Values used in statements and examples *)

(** The filter whose conjunct list is [ops]. *)
Definition filter_of (ops : list pyval) : pyval :=
  PyDict [("query", PyDict [("conjuncts", PyList ops)])].

(** The year-range argument as the slider gives it, or [None]. *)
Definition year_arg (year_range : option (Z * Z)) : pyval :=
  match year_range with
  | Some (lo, hi) => PyTuple [PyInt lo; PyInt hi]
  | None => PyNone
  end.

Definition rating_part (rating : pyval) : list pyval :=
  if truthy rating then [rating_query rating] else [].

Definition title_part (search_in_title title : pyval) : list pyval :=
  if truthy search_in_title then [title_query title] else [].

(** 0.0 and 7.5 as binary64 numbers. *)
Definition float_0 : spec_float := S754_zero false.
Definition float_7_5 : spec_float := S754_finite false 8444249301319680 (-50).

(** A reading of numbers for examples: integers by their order, floats by
    the IEEE comparison. *)
Definition example_reading : index_reading :=
  {| num_lt := fun a b =>
       match a, b with
       | PyInt x, PyInt y => (x <? y)%Z
       | PyFloat x, PyFloat y => SFltb x y
       | _, _ => false
       end;
     num_le := fun a b =>
       match a, b with
       | PyInt x, PyInt y => (x <=? y)%Z
       | PyFloat x, PyFloat y => SFleb x y
       | _, _ => false
       end;
     phrase_in := fun _ _ => false |}.

(** What a trace says: the inputs sent to the embedding service, the ids
    upserted, and whether a search was issued. *)
Definition embedded (ev : event) : option pyval :=
  match ev with
  | EmbeddingsCreate input _ => Some input
  | _ => None
  end.

Definition upserted (ev : event) : option string :=
  match ev with
  | Upsert doc_id _ => Some doc_id
  | _ => None
  end.

Definition is_search (ev : event) : bool :=
  match ev with
  | ScopeSearch _ _ _ => true
  | _ => false
  end.

Definition embed_inputs (tr : list event) : list pyval := omap embedded tr.
Definition upsert_ids (tr : list event) : list string := omap upserted tr.
Definition searches (tr : list event) : nat := length (List.filter is_search tr).


(** The pair the caller gets for a row. *)
Definition scored (row : search_row) : pyval * spec_float :=
  (row_fields row, row_score row).

(** The errors the services raise in the examples. *)
Definition EmbeddingServiceError : exn := Exn "EmbeddingServiceError" "rate limit".
Definition StoreQueryError : exn := Exn "StoreQueryError" "index not found".
Definition InvalidArgument : exn := Exn "InvalidArgument" "k must be >= 1".

(** Example ids: the n-th draw is n letters long, so no two are equal. *)
Fixpoint example_hex (n : nat) : string :=
  match n with
  | O => "id"
  | S n' => String.append "a" (example_hex n')
  end.

Definition example_vector : pyval := PyList [PyFloat float_7_5; PyFloat float_0].

Definition example_rows : list search_row :=
  [SearchRow (PyDict [("Series_Title", PyStr "Alien")]) float_7_5;
   SearchRow (PyDict [("Series_Title", PyStr "Solaris")]) float_0].

(** Every service answers. *)
Definition env_up : env :=
  {| embeddings_reply := fun _ _ _ => Ok [example_vector];
     vector_query_check := fun _ _ _ => None;
     search_reply := fun _ _ _ _ => RowStream example_rows None;
     uuid4_hex := example_hex;
     upsert_reply := fun _ _ _ => None |}.

(** The embedding service is down. *)
Definition env_embedding_down : env :=
  {| embeddings_reply := fun _ _ _ => Raise EmbeddingServiceError;
     vector_query_check := fun _ _ _ => None;
     search_reply := fun _ _ _ _ => RowStream example_rows None;
     uuid4_hex := example_hex;
     upsert_reply := fun _ _ _ => None |}.

(** The constructor of the vector query refuses a count below one. *)
Definition env_strict_sdk : env :=
  {| embeddings_reply := fun _ _ _ => Ok [example_vector];
     vector_query_check := fun _ _ k => if (k <? 1)%Z then Some InvalidArgument else None;
     search_reply := fun _ _ _ _ => RowStream example_rows None;
     uuid4_hex := example_hex;
     upsert_reply := fun _ _ _ => None |}.

(** The index yields one row and then fails. *)
Definition env_store_down : env :=
  {| embeddings_reply := fun _ _ _ => Ok [example_vector];
     vector_query_check := fun _ _ _ => None;
     search_reply := fun _ _ _ _ => RowStream (take 1 example_rows) (Some StoreQueryError);
     uuid4_hex := example_hex;
     upsert_reply := fun _ _ _ => None |}.

(** The embedding service fails on the overview of the third film only. *)
Definition env_third_fails : env :=
  {| embeddings_reply := fun _ input _ =>
       match input with
       | PyStr s => if String.eqb s "plot 3" then Raise EmbeddingServiceError
                    else Ok [example_vector]
       | _ => Ok [example_vector]
       end;
     vector_query_check := fun _ _ _ => None;
     search_reply := fun _ _ _ _ => RowStream [] None;
     uuid4_hex := example_hex;
     upsert_reply := fun _ _ _ => None |}.

Definition film (title plot : string) : list (string * pyval) :=
  [("Series_Title", PyStr title); ("Overview", PyStr plot)].

Definition five_films : list (list (string * pyval)) :=
  [film "film 1" "plot 1"; film "film 2" "plot 2"; film "film 3" "plot 3";
   film "film 4" "plot 4"; film "film 5" "plot 5"].

Definition world0 : world := World [] 0 ∅.

(** The filter built for the minimum rating [r] has a conjunct on the rating
    field with [r] as exclusive lower bound and no upper bound. *)
Definition rating_conjunct_emitted (year_range : option (Z * Z)) (r : spec_float)
    (search_in_title title : pyval) : Prop :=
  exists ops c,
    create_filter (year_arg year_range) (PyFloat r) search_in_title title
      = Ok (filter_of ops)
    /\ c ∈ ops
    /\ entry c "field" = Some (PyStr "IMDB_Rating")
    /\ entry c "min" = Some (PyFloat r)
    /\ entry c "inclusive_min" = Some (PyBool false)
    /\ entry c "max" = None.

(** The field a conjunct is on. *)
Definition field_of (conjunct : pyval) : option string :=
  match entry conjunct "field" with
  | Some (PyStr g) => Some g
  | _ => None
  end.

(** ** [cleanup_poster_url] (hybrid_search.py, lines 34-40) *)

(** [s.split(sep)] for a separator that is not empty: the pieces between the
    occurrences of [sep], found from the left and not overlapping.  [skip]
    counts the characters of a found separator still to pass. *)
Fixpoint split_from (sep : string) (skip : nat) (s : string) : list string :=
  match s with
  | EmptyString => [EmptyString]
  | String c s' =>
      match skip with
      | S n => split_from sep n s'
      | O =>
          if String.prefix sep s
          then EmptyString :: split_from sep (String.length sep - 1) s'
          else match split_from sep 0 s' with
               | piece :: pieces => String c piece :: pieces
               | [] => [String c EmptyString]
               end
      end
  end.

Definition split (sep s : string) : list string := split_from sep 0 s.

(** [sep.join(pieces)]. *)
Fixpoint join (sep : string) (pieces : list string) : string :=
  match pieces with
  | [] => EmptyString
  | [piece] => piece
  | piece :: pieces' => piece +:+ sep +:+ join sep pieces'
  end.

(** [sep in s]. *)
Fixpoint contains (sep s : string) : bool :=
  String.prefix sep s
  || match s with
     | EmptyString => false
     | String _ s' => contains sep s'
     end.

Definition cleanup_poster_url (poster_url : string) : result string :=
  prefix ← seq_index "list" (split "_V1_" poster_url) 0;
  suffix ← seq_index "list" (split "_AL_" poster_url) 1;
  Ok (prefix +:+ suffix).

(** ** The start of ingest.py (lines 13-45): the environment *)

(** [os.environ] after [load_dotenv()]. *)
Definition ValueError (variable_name : string) : exn :=
  Exn "ValueError"
      (variable_name
       +:+ " environment variable is not set. Please add it to the environment").

Definition check_environment_variable (environ : gmap string string)
    (variable_name : string) : result unit :=
  match environ !! variable_name with
  | None => Raise (ValueError variable_name)
  | Some _ => Ok tt
  end.

(** The seven checks, in the order of the script. *)
Definition ingest_checks (environ : gmap string string) : result unit :=
  _ ← check_environment_variable environ "OPENAI_API_KEY";
  _ ← check_environment_variable environ "DB_CONN_STR";
  _ ← check_environment_variable environ "DB_USERNAME";
  _ ← check_environment_variable environ "DB_PASSWORD";
  _ ← check_environment_variable environ "DB_BUCKET";
  _ ← check_environment_variable environ "DB_SCOPE";
  check_environment_variable environ "DB_COLLECTION".

Definition ingest_required : list string :=
  ["OPENAI_API_KEY"; "DB_CONN_STR"; "DB_USERNAME"; "DB_PASSWORD"; "DB_BUCKET";
   "DB_SCOPE"; "DB_COLLECTION"].

(** [EMBEDDING_MODEL = os.getenv("EMBEDDING_MODEL")], replaced by the
    default when it is [None] or empty. *)
Definition ingest_embedding_model (environ : gmap string string) : string :=
  match environ !! "EMBEDDING_MODEL" with
  | Some m => if truthy (PyStr m) then m else "text-embedding-3-small"
  | None => "text-embedding-3-small"
  end.

(** ** One run of the page with Submit pressed and the SDK chosen
    (hybrid_search.py, lines 201-202, 227-256 and 284-294)

    The arguments are the values of the widgets: the slider gives a pair of
    years, the number inputs a rating and a count, the check boxes booleans,
    the text input a string.  With the filters enabled [create_filter] is
    called twice with the same arguments: in the sidebar (line 244), where
    the filter is shown as JSON when asked for, and again after Submit (line
    255).  [search_filters] is the empty dictionary otherwise.  The first
    component of the result is the filter shown in the sidebar, if any. *)
Definition submit_search (E : env) (index_name : string) (enable_filters : bool)
    (year_range : Z * Z) (rating : spec_float) (search_in_title show_filter : bool)
    (text : string) (no_of_results : Z)
  : M (option pyval * list (pyval * spec_float)) :=
  let search_filters := PyDict [] in
  let year_range := PyTuple [PyInt (fst year_range); PyInt (snd year_range)] in
  shown ←
    (if enable_filters then
       hybrid_search_filter ←
         lift (create_filter year_range (PyFloat rating) (PyBool search_in_title)
                             (PyStr text));
       mret (if show_filter then Some hybrid_search_filter else None)
     else mret None);
  search_filters ←
    (if enable_filters
     then lift (create_filter year_range (PyFloat rating) (PyBool search_in_title)
                              (PyStr text))
     else mret search_filters);
  results ← search_couchbase E index_name "Overview_embedding" text no_of_results
                             ["*"] search_filters;
  mret (shown, results).

(** The raw options such a run sends to the store. *)
Definition submitted_filter (enable_filters : bool) (year_range : Z * Z)
    (rating : spec_float) (search_in_title : bool) (text : string) : pyval :=
  if enable_filters
  then filter_of (year_query (PyInt (fst year_range)) (PyInt (snd year_range))
                    :: rating_part (PyFloat rating)
                    ++ title_part (PyBool search_in_title) (PyStr text))
  else PyDict [].

(** The events a run adds to a trace. *)
Definition added (w w' : world) : list event := drop (length (trace w)) (trace w').

(** Every reply of the services is a success, and the embedding reply
    holds an embedding. *)
Definition services_up (E : env) : Prop :=
  (forall n input model, exists v data, embeddings_reply E n input model = Ok (v :: data))
  /\ (forall n doc_id doc, upsert_reply E n doc_id doc = None).

Definition has_overview (row : list (string * pyval)) : Prop :=
  is_Some (dict_get row "Overview").

(** The docstring's example of a poster link. *)
Definition example_poster : string :=
  "https://m.media-amazon.com/images/M/MV5BMDFkYTc0MGEtZmNhMC00ZDIzLWFmNTEtODM1ZmRlYWMwMWFmXkEyXkFqcGdeQXVyMTMxODk2OTU@._V1_UX67_CR0,0,67,98_AL_.jpg".

Definition example_environ : gmap string string :=
  list_to_map [("OPENAI_API_KEY", "sk"); ("DB_CONN_STR", "couchbase://localhost");
               ("DB_USERNAME", "admin"); ("DB_PASSWORD", "secret");
               ("DB_BUCKET", "movies"); ("DB_SCOPE", "_default");
               ("DB_COLLECTION", "_default")].

(** The embedding service answers with no embedding at all. *)
Definition env_empty_reply : env :=
  {| embeddings_reply := fun _ _ _ => Ok [];
     vector_query_check := fun _ _ _ => None;
     search_reply := fun _ _ _ _ => RowStream example_rows None;
     uuid4_hex := example_hex;
     upsert_reply := fun _ _ _ => None |}.

(** The checks of a list of names, one after the other. *)
Fixpoint check_all (environ : gmap string string) (names : list string) : result unit :=
  match names with
  | [] => Ok tt
  | name :: names' =>
      _ ← check_environment_variable environ name; check_all environ names'
  end.

(** ** The display of the results (hybrid_search.py, lines 295-311) *)

(** What the page is given, in order.  The column is that of the [with]
    block the call is in; the score is the number the format string is
    applied to. *)
Inductive ui_event : Type :=
| StHeader (body : pyval)
| StColumns (n : Z)
| StImage (column : nat) (url : string)
| StWrite (column : nat) (args : list pyval)
| StWriteScore (column : nat) (score : spec_float)
| StDivider.

Definition UI (A : Type) : Type := list ui_event -> result A * list ui_event.

#[global] Instance UI_ret : MRet UI := fun _ a out => (Ok a, out).
#[global] Instance UI_bind : MBind UI := fun _ _ f m out =>
  match m out with
  | (Ok a, out') => f a out'
  | (Raise e, out') => (Raise e, out')
  end.

Definition ui_lift {A : Type} (r : result A) : UI A := fun out => (r, out).
Definition show (ev : ui_event) : UI unit := fun out => (Ok tt, out ++ [ev]).

(** [v[k]] for a string [k]. *)
Definition py_subscript (v : pyval) (k : string) : result pyval :=
  match v with
  | PyDict d => dict_item d k
  | PyStr _ | PyTuple _ | PyList _ =>
      Raise (Exn "TypeError" "indices must be integers")
  | _ => Raise TypeError
  end.

(** [cleanup_poster_url] on a value: only a string has [split]. *)
Definition cleanup_poster_value (poster_url : pyval) : result string :=
  match poster_url with
  | PyStr s => cleanup_poster_url s
  | _ => Raise (Exn "AttributeError" "object has no attribute 'split'")
  end.

Definition render_result (doc : pyval * spec_float) : UI unit :=
  let '(movie, score) := doc in
  title ← ui_lift (py_subscript movie "Series_Title");
  _ ← show (StHeader title);
  _ ← show (StColumns 2);
  poster ← ui_lift (py_subscript movie "Poster_Link");
  url ← ui_lift (cleanup_poster_value poster);
  _ ← show (StImage 1 url);
  overview ← ui_lift (py_subscript movie "Overview");
  _ ← show (StWrite 2 [PyStr "Synopsis:"; overview]);
  _ ← show (StWriteScore 2 score);
  year ← ui_lift (py_subscript movie "Released_Year");
  _ ← show (StWrite 2 [PyStr "Released Year:"; year]);
  rating ← ui_lift (py_subscript movie "IMDB_Rating");
  _ ← show (StWrite 2 [PyStr "IMDB Rating:"; rating]);
  runtime ← ui_lift (py_subscript movie "Runtime");
  _ ← show (StWrite 2 [PyStr "Runtime:"; runtime]);
  show StDivider.

Fixpoint render_results (results : list (pyval * spec_float)) : UI unit :=
  match results with
  | [] => mret tt
  | doc :: rest => _ ← render_result doc; render_results rest
  end.

(** A result that can be shown: a dictionary with the six fields read, whose
    poster link is a string with "_AL_" in it. *)
Definition renderable (doc : pyval * spec_float) : Prop :=
  exists d url,
    fst doc = PyDict d
    /\ is_Some (dict_get d "Series_Title")
    /\ dict_get d "Poster_Link" = Some (PyStr url)
    /\ contains "_AL_" url = true
    /\ is_Some (dict_get d "Overview")
    /\ is_Some (dict_get d "Released_Year")
    /\ is_Some (dict_get d "IMDB_Rating")
    /\ is_Some (dict_get d "Runtime").

Definition example_movie (title poster : string) : pyval :=
  PyDict [("Series_Title", PyStr title); ("Poster_Link", PyStr poster);
          ("Overview", PyStr "plot"); ("Released_Year", PyInt 1979);
          ("IMDB_Rating", PyFloat float_7_5); ("Runtime", PyStr "117 min")].


(** * Properties of [create_filter] *)

Lemma create_filter_tuple (lo hi rating search_in_title title : pyval) :
  create_filter (PyTuple [lo; hi]) rating search_in_title title
  = Ok (filter_of (year_query lo hi
                     :: rating_part rating ++ title_part search_in_title title)).
Proof.
  unfold create_filter, rating_part, title_part, filter_of. cbn.
  destruct (truthy rating), (truthy search_in_title); reflexivity.
Qed.

Lemma create_filter_falsy (year_range rating search_in_title title : pyval) :
  truthy year_range = false ->
  create_filter year_range rating search_in_title title
  = Ok (filter_of (rating_part rating ++ title_part search_in_title title)).
Proof.
  intros Hy. unfold create_filter, rating_part, title_part, filter_of.
  rewrite Hy. cbn.
  destruct (truthy rating), (truthy search_in_title); reflexivity.
Qed.

Lemma conjuncts_filter_of (ops : list pyval) : conjuncts (filter_of ops) = Some ops.
Proof. reflexivity. Qed.

Lemma on_field_title_part (f : string) (search_in_title title : pyval) :
  String.eqb title_field f = false ->
  Forall (fun c => on_field f c = false) (title_part search_in_title title).
Proof.
  intros Hf. unfold title_part. destruct (truthy search_in_title); constructor.
  - unfold on_field. cbn. exact Hf.
  - constructor.
Qed.

Lemma on_field_rating_part (f : string) (rating : pyval) :
  String.eqb rating_field f = false ->
  Forall (fun c => on_field f c = false) (rating_part rating).
Proof.
  intros Hf. unfold rating_part. destruct (truthy rating); constructor.
  - unfold on_field. cbn. exact Hf.
  - constructor.
Qed.

Example create_filter_scenario :
  create_filter (PyTuple [PyInt 1990; PyInt 2024]) (PyFloat float_7_5)
                (PyBool false) (PyStr "space adventure")
  = Ok (PyDict [("query", PyDict [("conjuncts", PyList
         [year_query (PyInt 1990) (PyInt 2024);
          rating_query (PyFloat float_7_5)])])]).
Proof. reflexivity. Qed.

(** C2. For every year range (lo, hi), ordered or inverted, [create_filter]
    succeeds and its first conjunct is the numeric range on "Released_Year"
    with min = lo, max = hi and both bounds inclusive; no other conjunct is
    on that field. *)
Theorem year_range_conjunct (lo hi : Z) (rating search_in_title title : pyval) :
  exists rest,
    create_filter (PyTuple [PyInt lo; PyInt hi]) rating search_in_title title
      = Ok (filter_of (year_query (PyInt lo) (PyInt hi) :: rest))
    /\ entry (year_query (PyInt lo) (PyInt hi)) "field" = Some (PyStr "Released_Year")
    /\ entry (year_query (PyInt lo) (PyInt hi)) "min" = Some (PyInt lo)
    /\ entry (year_query (PyInt lo) (PyInt hi)) "max" = Some (PyInt hi)
    /\ entry (year_query (PyInt lo) (PyInt hi)) "inclusive_min" = Some (PyBool true)
    /\ entry (year_query (PyInt lo) (PyInt hi)) "inclusive_max" = Some (PyBool true)
    /\ Forall (fun c => on_field "Released_Year" c = false) rest.
Proof.
  exists (rating_part rating ++ title_part search_in_title title).
  rewrite create_filter_tuple. repeat split.
  apply Forall_app. split.
  - now apply on_field_rating_part.
  - now apply on_field_title_part.
Qed.

Example inverted_year_range :
  create_filter (PyTuple [PyInt 2024; PyInt 1990]) (PyFloat float_0)
                (PyBool false) (PyStr "")
  = Ok (filter_of [year_query (PyInt 2024) (PyInt 1990)]).
Proof. reflexivity. Qed.

Lemma create_filter_year_arg (yr : option (Z * Z)) (rating search_in_title title : pyval) :
  create_filter (year_arg yr) rating search_in_title title
  = Ok (filter_of (match yr with
                   | Some (lo, hi) => [year_query (PyInt lo) (PyInt hi)]
                   | None => []
                   end ++ rating_part rating ++ title_part search_in_title title)).
Proof.
  destruct yr as [[lo hi]|]; cbn [year_arg].
  - apply create_filter_tuple.
  - now apply create_filter_falsy.
Qed.

Lemma on_field_year_part (f : string) (yr : option (Z * Z)) :
  String.eqb year_field f = false ->
  Forall (fun c => on_field f c = false)
         (match yr with
          | Some (lo, hi) => [year_query (PyInt lo) (PyInt hi)]
          | None => []
          end).
Proof.
  intros Hf. destruct yr as [[lo hi]|]; constructor.
  - unfold on_field. cbn. exact Hf.
  - constructor.
Qed.

Lemma SFltb_irrefl (x : spec_float) : SFltb x x = false.
Proof.
  unfold SFltb, SFcompare.
  destruct x as [s|s| |s m e]; try destruct s; try reflexivity;
    rewrite Z.compare_refl, Pos.compare_cont_refl; reflexivity.
Qed.

Lemma example_reading_irrefl (v : pyval) : num_lt example_reading v v = false.
Proof.
  destruct v; cbn; try reflexivity.
  - apply Z.ltb_irrefl.
  - apply SFltb_irrefl.
Qed.

(** C3, as the code has it. For every minimum rating r other than zero,
    [create_filter] emits a conjunct on "IMDB_Rating" with min = r,
    inclusive_min = false and no max; under the conjunctive reading with a
    strict order on numbers, a document whose rating equals r does not match
    the filter. *)
Theorem rating_conjunct_nonzero (yr : option (Z * Z)) (r : spec_float)
    (search_in_title title : pyval) :
  float_is_zero r = false ->
  rating_conjunct_emitted yr r search_in_title title
  /\ forall (I : index_reading) (doc : list (string * pyval)),
       (forall v, num_lt I v v = false) ->
       dict_get doc rating_field = Some (PyFloat r) ->
       exists f,
         create_filter (year_arg yr) (PyFloat r) search_in_title title = Ok f
         /\ matches I doc f = false.
Proof.
  intros Hr.
  assert (Hp : rating_part (PyFloat r) = [rating_query (PyFloat r)]).
  { unfold rating_part. cbn. now rewrite Hr. }
  split.
  - unfold rating_conjunct_emitted. rewrite create_filter_year_arg, Hp.
    eexists _, (rating_query (PyFloat r)). split; [reflexivity|].
    split; [|now repeat split].
    apply elem_of_app; right. apply elem_of_app; left. constructor.
  - intros I doc Hirr Hdoc. rewrite create_filter_year_arg, Hp.
    eexists. split; [reflexivity|].
    unfold matches. rewrite conjuncts_filter_of.
    apply not_true_iff_false. intros Hall.
    rewrite forallb_forall in Hall.
    specialize (Hall (rating_query (PyFloat r))).
    assert (Hc : clause_holds I doc (rating_query (PyFloat r)) = false).
    { unfold clause_holds. cbn. fold rating_field. rewrite Hdoc.
      unfold range_holds. cbn. now rewrite Hirr. }
    rewrite Hc in Hall. discriminate Hall.
    apply in_or_app; right. apply in_or_app; left. now left.
Qed.

Lemma rating_conjunct_nonzero_witness :
  rating_conjunct_emitted (Some (1990, 2024)%Z) float_7_5 (PyBool false)
                          (PyStr "space adventure")
  /\ exists f,
       create_filter (year_arg (Some (1990, 2024)%Z)) (PyFloat float_7_5)
                     (PyBool false) (PyStr "space adventure") = Ok f
       /\ matches example_reading
                  [("Released_Year", PyInt 2000); ("IMDB_Rating", PyFloat float_7_5)]
                  f = false.
Proof.
  destruct (rating_conjunct_nonzero (Some (1990, 2024)%Z) float_7_5 (PyBool false)
              (PyStr "space adventure") eq_refl) as [H1 H2].
  split; [exact H1|].
  apply (H2 example_reading); [exact example_reading_irrefl | reflexivity].
Defined.

(** C3, as stated, fails at the rating 0.0: with the slider's year range and
    a minimum rating of 0.0 the filter has no conjunct on "IMDB_Rating". *)
Lemma rating_zero_no_conjunct :
  ~ rating_conjunct_emitted (Some (1900, 2024)%Z) float_0 (PyBool false) (PyStr "").
Proof.
  intros (ops & c & Hf & Hin & Hfield & _).
  rewrite create_filter_year_arg in Hf. cbn in Hf.
  injection Hf as <-.
  apply list_elem_of_singleton in Hin. subst c. discriminate Hfield.
Qed.

(** C5. With no active constraint (falsy year range, falsy rating, title
    search off) [create_filter] returns the filter whose conjunct list is
    empty, and under the conjunctive reading that filter matches every
    document. *)
Theorem no_constraints_empty_predicate (year_range rating search_in_title title : pyval) :
  truthy year_range = false ->
  truthy rating = false ->
  truthy search_in_title = false ->
  create_filter year_range rating search_in_title title = Ok (filter_of [])
  /\ conjuncts (filter_of []) = Some []
  /\ forall (I : index_reading) (doc : list (string * pyval)),
       matches I doc (filter_of []) = true.
Proof.
  intros Hy Hr Ht. rewrite create_filter_falsy by exact Hy.
  unfold rating_part, title_part. rewrite Hr, Ht.
  split; [reflexivity|]. split; [reflexivity|]. intros I doc. reflexivity.
Qed.

Lemma no_constraints_empty_predicate_witness :
  create_filter PyNone (PyFloat float_0) (PyBool false) (PyStr "space adventure")
    = Ok (filter_of [])
  /\ conjuncts (filter_of []) = Some []
  /\ forall (I : index_reading) (doc : list (string * pyval)),
       matches I doc (filter_of []) = true.
Proof.
  apply (no_constraints_empty_predicate PyNone (PyFloat float_0) (PyBool false)
           (PyStr "space adventure")); reflexivity.
Defined.

(** C9. The arguments are tested by truthiness. A minimum rating of zero
    (0.0 or -0.0) gives the same filter as no rating at all, with no
    conjunct on "IMDB_Rating"; a year range of [None] or of the empty tuple
    gives a filter with no conjunct on "Released_Year". *)
Theorem falsy_arguments_add_no_conjunct :
  (forall (yr : option (Z * Z)) (sign : bool) (search_in_title title : pyval),
     exists ops,
       create_filter (year_arg yr) (PyFloat (S754_zero sign)) search_in_title title
         = Ok (filter_of ops)
       /\ create_filter (year_arg yr) PyNone search_in_title title
         = Ok (filter_of ops)
       /\ Forall (fun c => on_field "IMDB_Rating" c = false) ops)
  /\ (forall (rating search_in_title title : pyval),
        exists ops,
          create_filter PyNone rating search_in_title title = Ok (filter_of ops)
          /\ create_filter (PyTuple []) rating search_in_title title
             = Ok (filter_of ops)
          /\ Forall (fun c => on_field "Released_Year" c = false) ops).
Proof.
  split.
  - intros yr sign sit title. rewrite !create_filter_year_arg.
    eexists. split; [reflexivity|]. split; [reflexivity|].
    cbn [rating_part truthy float_is_zero negb app].
    apply Forall_app. split.
    + now apply on_field_year_part.
    + now apply on_field_title_part.
  - intros rating sit title. rewrite !create_filter_falsy by reflexivity.
    eexists. split; [reflexivity|]. split; [reflexivity|].
    apply Forall_app. split.
    + now apply on_field_rating_part.
    + now apply on_field_title_part.
Qed.

Example rating_zero_filter :
  create_filter (PyTuple [PyInt 1900; PyInt 2024]) (PyFloat float_0)
                (PyBool false) (PyStr "alien")
  = Ok (filter_of [year_query (PyInt 1900) (PyInt 2024)]).
Proof. reflexivity. Qed.

(** C10. With title search on, the last conjunct of the filter is the
    phrase match on "Series_Title" carrying the title string as given; with
    the empty string the conjunct is still there, with the empty phrase. *)
Theorem title_search_emits_phrase (yr : option (Z * Z)) (rating : pyval) (title : string) :
  (exists ops,
     create_filter (year_arg yr) rating (PyBool true) (PyStr title)
       = Ok (filter_of (ops ++ [title_query (PyStr title)]))
     /\ Forall (fun c => on_field "Series_Title" c = false) ops)
  /\ entry (title_query (PyStr title)) "match_phrase" = Some (PyStr title)
  /\ entry (title_query (PyStr title)) "field" = Some (PyStr "Series_Title")
  /\ exists ops,
       create_filter (year_arg yr) rating (PyBool true) (PyStr "")
         = Ok (filter_of (ops ++ [PyDict [("match_phrase", PyStr "");
                                          ("field", PyStr "Series_Title")]])).
Proof.
  assert (Hops : Forall (fun c => on_field "Series_Title" c = false)
                   (match yr with
                    | Some (lo, hi) => [year_query (PyInt lo) (PyInt hi)]
                    | None => []
                    end ++ rating_part rating)).
  { apply Forall_app. split.
    - now apply on_field_year_part.
    - now apply on_field_rating_part. }
  split; [|split; [reflexivity|split; [reflexivity|]]].
  - eexists. rewrite create_filter_year_arg. cbn [title_part truthy].
    rewrite app_assoc. split; [reflexivity|exact Hops].
  - eexists. rewrite create_filter_year_arg. cbn [title_part truthy].
    rewrite app_assoc. reflexivity.
Qed.

Example empty_title_filter :
  create_filter PyNone (PyFloat float_0) (PyBool true) (PyStr "")
  = Ok (filter_of [PyDict [("match_phrase", PyStr ""); ("field", PyStr "Series_Title")]]).
Proof. reflexivity. Qed.

(** * Properties of [search_couchbase] *)

Lemma parse_rows_map (rows : list search_row) (acc : list (pyval * spec_float)) :
  parse_rows rows acc = acc ++ map scored rows.
Proof.
  revert acc. induction rows as [|row rows IH]; intros acc; cbn.
  - now rewrite app_nil_r.
  - rewrite IH, <- app_assoc. reflexivity.
Qed.

(** The three ways a search can go, in the order of the calls. *)
Lemma search_couchbase_cases (E : env) (index_name embedding_key search_text : string)
    (k : Z) (fields : list string) (search_options : pyval) (w : world) :
  let w1 := record_event (EmbeddingsCreate (PyStr search_text) EMBEDDING_MODEL) w in
  search_couchbase E index_name embedding_key search_text k fields search_options w
  = match data ← embeddings_reply E (length (trace w)) (PyStr search_text)
                   EMBEDDING_MODEL;
          seq_index "list" data 0 with
    | Raise e => (Raise e, w1)
    | Ok vector =>
        match vector_query_check E embedding_key vector k with
        | Some e => (Raise e, w1)
        | None =>
            let req := SearchRequest embedding_key vector k in
            let opts := SearchOptions k fields search_options in
            let reply := search_reply E (length (trace w1)) index_name req opts in
            (match failure reply with
             | Some e => Raise e
             | None => Ok (map scored (yielded reply))
             end,
             record_event (ScopeSearch index_name req opts) w1)
        end
    end.
Proof.
  intros w1. subst w1.
  unfold search_couchbase, generate_embeddings, embeddings_create, vector_query,
    try_except, scope_search, lift.
  cbv [mbind M_bind mret M_ret result_bind].
  destruct (embeddings_reply E (length (trace w)) (PyStr search_text) EMBEDDING_MODEL)
    as [data|e]; [|reflexivity].
  destruct (seq_index "list" data 0) as [vector|e]; [|reflexivity].
  destruct (vector_query_check E embedding_key vector k) as [e|]; [reflexivity|].
  rewrite parse_rows_map. cbn [app].
  destruct (failure _) as [e|]; reflexivity.
Qed.

Lemma trace_record_event (ev : event) (w : world) :
  trace (record_event ev w) = trace w ++ [ev].
Proof. reflexivity. Qed.

Lemma length_trace_record_event (ev : event) (w : world) :
  length (trace (record_event ev w)) = S (length (trace w)).
Proof. cbn. rewrite length_app. cbn. lia. Qed.

Lemma searches_app (tr1 tr2 : list event) :
  searches (tr1 ++ tr2) = searches tr1 + searches tr2.
Proof. unfold searches. now rewrite List.filter_app, length_app. Qed.

(** C1. When the embedding call, the construction of the query and the
    store's search succeed, [search_couchbase] returns one pair per row the
    store yielded, in the store's order, each the row's fields with the
    row's score: nothing is dropped, reordered or rescored. *)
Theorem search_returns_store_rows (E : env)
    (index_name embedding_key search_text : string) (k : Z) (fields : list string)
    (search_options : pyval) (w : world)
    (data : list pyval) (vector : pyval) (rows : list search_row) :
  embeddings_reply E (length (trace w)) (PyStr search_text) EMBEDDING_MODEL = Ok data ->
  seq_index "list" data 0 = Ok vector ->
  vector_query_check E embedding_key vector k = None ->
  search_reply E (S (length (trace w))) index_name
    (SearchRequest embedding_key vector k) (SearchOptions k fields search_options)
    = RowStream rows None ->
  exists res w',
    search_couchbase E index_name embedding_key search_text k fields search_options w
      = (Ok res, w')
    /\ res = map scored rows
    /\ length res = length rows
    /\ forall i, res !! i = scored <$> rows !! i.
Proof.
  intros Hemb Hvec Hvq Hrows.
  rewrite search_couchbase_cases, Hemb. cbn [mbind result_bind].
  rewrite Hvec, Hvq. cbv zeta.
  rewrite length_trace_record_event, Hrows. cbn [failure yielded].
  eexists _, _. split; [reflexivity|]. split; [reflexivity|].
  split; [apply length_map|]. intros i. apply list_lookup_fmap.
Qed.

Lemma search_returns_store_rows_witness :
  exists res w',
    search_couchbase env_up "movies" "Overview_embedding" "space adventure" 5
                     ["*"] (PyDict []) world0 = (Ok res, w')
    /\ res = map scored example_rows
    /\ length res = length example_rows
    /\ forall i, res !! i = scored <$> example_rows !! i.
Proof.
  apply (search_returns_store_rows env_up "movies" "Overview_embedding"
           "space adventure" 5 ["*"] (PyDict []) world0
           [example_vector] example_vector example_rows); reflexivity.
Defined.

(** C7. A failure of the embedding call reaches the caller as it was
    raised, after that one call and without a search; a failure of the
    store's search, also after rows were yielded, reaches the caller as it
    was raised, after one embedding call and one search, and no list of
    results is returned. *)
Theorem search_failures_propagate (E : env)
    (index_name embedding_key search_text : string) (k : Z) (fields : list string)
    (search_options : pyval) (w : world) (e : exn) :
  (embeddings_reply E (length (trace w)) (PyStr search_text) EMBEDDING_MODEL = Raise e ->
   exists w',
     search_couchbase E index_name embedding_key search_text k fields search_options w
       = (Raise e, w')
     /\ trace w' = trace w ++ [EmbeddingsCreate (PyStr search_text) EMBEDDING_MODEL])
  /\ (forall (data : list pyval) (vector : pyval) (rows : list search_row),
        embeddings_reply E (length (trace w)) (PyStr search_text) EMBEDDING_MODEL
          = Ok data ->
        seq_index "list" data 0 = Ok vector ->
        vector_query_check E embedding_key vector k = None ->
        search_reply E (S (length (trace w))) index_name
          (SearchRequest embedding_key vector k) (SearchOptions k fields search_options)
          = RowStream rows (Some e) ->
        exists w',
          search_couchbase E index_name embedding_key search_text k fields
                           search_options w = (Raise e, w')
          /\ trace w' = trace w
                ++ [EmbeddingsCreate (PyStr search_text) EMBEDDING_MODEL;
                    ScopeSearch index_name (SearchRequest embedding_key vector k)
                                (SearchOptions k fields search_options)]).
Proof.
  split.
  - intros Hemb. rewrite search_couchbase_cases, Hemb. cbn [mbind result_bind].
    eexists. split; reflexivity.
  - intros data vector rows Hemb Hvec Hvq Hrows.
    rewrite search_couchbase_cases, Hemb. cbn [mbind result_bind].
    rewrite Hvec, Hvq. cbv zeta.
    rewrite length_trace_record_event, Hrows. cbn [failure yielded].
    eexists. split; [reflexivity|].
    rewrite !trace_record_event, <- app_assoc. reflexivity.
Qed.

Lemma search_failures_propagate_witness :
  (exists w',
     search_couchbase env_embedding_down "movies" "Overview_embedding"
                      "space adventure" 5 ["*"] (PyDict []) world0
       = (Raise EmbeddingServiceError, w')
     /\ trace w' = [EmbeddingsCreate (PyStr "space adventure") EMBEDDING_MODEL])
  /\ (exists w',
        search_couchbase env_store_down "movies" "Overview_embedding"
                         "space adventure" 5 ["*"] (PyDict []) world0
          = (Raise StoreQueryError, w')
        /\ trace w' = [EmbeddingsCreate (PyStr "space adventure") EMBEDDING_MODEL;
                       ScopeSearch "movies"
                         (SearchRequest "Overview_embedding" example_vector 5)
                         (SearchOptions 5 ["*"] (PyDict []))]).
Proof.
  split.
  - apply (search_failures_propagate env_embedding_down "movies" "Overview_embedding"
             "space adventure" 5 ["*"] (PyDict []) world0 EmbeddingServiceError).
    reflexivity.
  - apply (proj2 (search_failures_propagate env_store_down "movies"
                    "Overview_embedding" "space adventure" 5 ["*"] (PyDict [])
                    world0 StoreQueryError)
             [example_vector] example_vector (take 1 example_rows));
      reflexivity.
Defined.

(** C4, as the code has it. [search_couchbase] has no test of k: for every
    k, positive or not, what it does is fixed by the replies alone. The
    embedding service is called first and its failure is what the caller
    gets. k then goes to the SDK's constructor of the vector query: when
    that raises, its exception is what the caller gets and no search is
    issued. When it accepts, the search is issued with k as number of
    candidates and as limit, and the result is one pair per row the store
    yields, in its order; so it has at most k entries when the store yields
    at most k rows. *)
Theorem search_has_no_check_of_k (E : env)
    (index_name embedding_key search_text : string) (k : Z) (fields : list string)
    (raw : pyval) (w : world) :
  (forall e,
     embeddings_reply E (length (trace w)) (PyStr search_text) EMBEDDING_MODEL
       = Raise e ->
     search_couchbase E index_name embedding_key search_text k fields raw w
     = (Raise e, record_event (EmbeddingsCreate (PyStr search_text) EMBEDDING_MODEL) w))
  /\ (forall data vector e,
        embeddings_reply E (length (trace w)) (PyStr search_text) EMBEDDING_MODEL
          = Ok data ->
        seq_index "list" data 0 = Ok vector ->
        vector_query_check E embedding_key vector k = Some e ->
        search_couchbase E index_name embedding_key search_text k fields raw w
        = (Raise e,
           record_event (EmbeddingsCreate (PyStr search_text) EMBEDDING_MODEL) w))
  /\ (forall data vector rows,
        embeddings_reply E (length (trace w)) (PyStr search_text) EMBEDDING_MODEL
          = Ok data ->
        seq_index "list" data 0 = Ok vector ->
        vector_query_check E embedding_key vector k = None ->
        search_reply E (S (length (trace w))) index_name
          (SearchRequest embedding_key vector k) (SearchOptions k fields raw)
          = RowStream rows None ->
        search_couchbase E index_name embedding_key search_text k fields raw w
        = (Ok (map scored rows),
           record_event
             (ScopeSearch index_name (SearchRequest embedding_key vector k)
                          (SearchOptions k fields raw))
             (record_event (EmbeddingsCreate (PyStr search_text) EMBEDDING_MODEL) w))
        /\ length (map scored rows) = length rows
        /\ ((Z.of_nat (length rows) <= k)%Z ->
            (Z.of_nat (length (map scored rows)) <= k)%Z)).
Proof.
  split; [|split].
  - intros e Hemb. rewrite search_couchbase_cases, Hemb. reflexivity.
  - intros data vector e Hemb Hvec Hvq.
    rewrite search_couchbase_cases, Hemb. cbn [mbind result_bind].
    now rewrite Hvec, Hvq.
  - intros data vector rows Hemb Hvec Hvq Hrows.
    rewrite search_couchbase_cases, Hemb. cbn [mbind result_bind].
    rewrite Hvec, Hvq. cbv zeta.
    rewrite length_trace_record_event, Hrows. cbn [failure yielded].
    split; [reflexivity|]. rewrite length_map. split; [reflexivity|tauto].
Qed.

Lemma search_has_no_check_of_k_witness :
  search_couchbase env_embedding_down "movies" "Overview_embedding"
                   "space adventure" 0 ["*"] (PyDict []) world0
  = (Raise EmbeddingServiceError,
     record_event (EmbeddingsCreate (PyStr "space adventure") EMBEDDING_MODEL) world0)
  /\ search_couchbase env_strict_sdk "movies" "Overview_embedding"
                      "space adventure" 0 ["*"] (PyDict []) world0
     = (Raise InvalidArgument,
        record_event (EmbeddingsCreate (PyStr "space adventure") EMBEDDING_MODEL)
                     world0)
  /\ search_couchbase env_up "movies" "Overview_embedding"
                      "space adventure" (-1) ["*"] (PyDict []) world0
     = (Ok (map scored example_rows),
        record_event
          (ScopeSearch "movies" (SearchRequest "Overview_embedding" example_vector (-1))
                       (SearchOptions (-1) ["*"] (PyDict [])))
          (record_event (EmbeddingsCreate (PyStr "space adventure") EMBEDDING_MODEL)
                        world0))
  /\ (Z.of_nat (length (map scored example_rows)) <= 5)%Z.
Proof.
  split; [|split; [|split]].
  - apply (search_has_no_check_of_k env_embedding_down "movies" "Overview_embedding"
             "space adventure" 0 ["*"] (PyDict []) world0).
    reflexivity.
  - apply (proj1 (proj2 (search_has_no_check_of_k env_strict_sdk "movies"
                           "Overview_embedding" "space adventure" 0 ["*"]
                           (PyDict []) world0))
             [example_vector] example_vector InvalidArgument); reflexivity.
  - apply (proj2 (proj2 (search_has_no_check_of_k env_up "movies"
                           "Overview_embedding" "space adventure" (-1) ["*"]
                           (PyDict []) world0))
             [example_vector] example_vector example_rows); reflexivity.
  - apply (proj2 (proj2 (search_has_no_check_of_k env_strict_sdk "movies"
                           "Overview_embedding" "space adventure" 5 ["*"]
                           (PyDict []) world0))
             [example_vector] example_vector example_rows);
      try reflexivity. cbn. lia.
Defined.

(** C4, as stated, fails: with k = 0 and the embedding service down, the
    caller gets the embedding error, not an invalid-argument error. *)
Lemma search_zero_embedding_down :
  exists e,
    fst (search_couchbase env_embedding_down "movies" "Overview_embedding"
           "space adventure" 0 ["*"] (PyDict []) world0) = Raise e
    /\ exn_class e = "EmbeddingServiceError"
    /\ exn_class e <> "InvalidArgument".
Proof.
  exists EmbeddingServiceError. split; [reflexivity|]. split; [reflexivity|].
  discriminate.
Qed.

(** Nothing in the function itself stops the search for k = 0: were the
    SDK's constructor to accept the count, the search would be issued. *)
Example search_zero_lenient_sdk :
  search_couchbase env_up "movies" "Overview_embedding" "space adventure" 0
                   ["*"] (PyDict []) world0
  = (Ok (map scored example_rows),
     World [EmbeddingsCreate (PyStr "space adventure") EMBEDDING_MODEL;
            ScopeSearch "movies" (SearchRequest "Overview_embedding" example_vector 0)
                        (SearchOptions 0 ["*"] (PyDict []))] 0 ∅).
Proof. reflexivity. Qed.

(** * Properties of the ingestion loop *)

(** The document stored for a row. *)
Lemma ingest_row_cases (E : env) (model : string) (row : list (string * pyval))
    (w : world) :
  ingest_row E model row w
  = match dict_item row "Overview" with
    | Raise e => (Raise e, w)
    | Ok overview =>
        let w1 := record_event (EmbeddingsCreate overview model) w in
        match data ← embeddings_reply E (length (trace w)) overview model;
              seq_index "list" data 0 with
        | Raise e => (Raise e, w1)
        | Ok embedding =>
            let doc_id := uuid4_hex E (draws w) in
            let doc := PyDict (dict_set row "Overview_embedding" embedding) in
            let tr := trace w1 ++ [Uuid4] in
            match upsert_reply E (length tr) doc_id doc with
            | Some e =>
                (Raise e, World (tr ++ [Upsert doc_id doc]) (S (draws w)) (collection w))
            | None =>
                (Ok tt, World (tr ++ [Upsert doc_id doc]) (S (draws w))
                              (<[doc_id := doc]> (collection w)))
            end
        end
    end.
Proof.
  unfold ingest_row, generate_embeddings, embeddings_create, uuid4,
    collection_upsert, lift, record_event.
  cbv [mbind M_bind mret M_ret result_bind].
  destruct (dict_item row "Overview") as [overview|e]; [|reflexivity].
  destruct (embeddings_reply E (length (trace w)) overview model) as [data|e];
    [|reflexivity].
  destruct (seq_index "list" data 0) as [embedding|e]; [|reflexivity].
  cbn [trace draws collection].
  destruct (upsert_reply _ _ _ _) as [e|]; reflexivity.
Qed.

(** What one row does to the collection and to the count of draws. *)
Lemma ingest_row_effect (E : env) (model : string) (row : list (string * pyval))
    (w : world) (r : result unit) (w' : world) :
  ingest_row E model row w = (r, w') ->
  (exists e, r = Raise e /\ collection w' = collection w
             /\ draws w <= draws w' <= S (draws w))
  \/ (r = Ok tt /\ draws w' = S (draws w)
      /\ exists embedding,
           collection w'
           = <[uuid4_hex E (draws w)
               := PyDict (dict_set row "Overview_embedding" embedding)]>
               (collection w)).
Proof.
  rewrite ingest_row_cases.
  destruct (dict_item row "Overview") as [overview|e].
  2:{ intros [= <- <-]. left. exists e. repeat split; lia. }
  cbv zeta.
  destruct (_ ← embeddings_reply E _ overview model; seq_index "list" _ 0)
    as [embedding|e].
  2:{ intros [= <- <-]. left. exists e. cbn. repeat split; lia. }
  destruct (upsert_reply _ _ _ _) as [e|]; intros [= <- <-].
  - left. exists e. cbn. repeat split; lia.
  - right. cbn. repeat split. now exists embedding.
Qed.

Lemma ingest_loop_cons (E : env) (model : string) (row : list (string * pyval))
    (rest : list (list (string * pyval))) (w : world) :
  ingest_loop E model (row :: rest) w
  = match ingest_row E model row w with
    | (Ok _, w1) => ingest_loop E model rest w1
    | (Raise e, w1) => (Raise e, w1)
    end.
Proof. reflexivity. Qed.

(** A row that raises ends the loop: the rows after it change nothing. *)
Lemma ingest_loop_abort (E : env) (model : string)
    (done : list (list (string * pyval))) (row : list (string * pyval))
    (rest : list (list (string * pyval))) (w w1 w' : world) (e : exn) :
  ingest_loop E model done w = (Ok tt, w1) ->
  ingest_row E model row w1 = (Raise e, w') ->
  ingest_loop E model (done ++ row :: rest) w = (Raise e, w').
Proof.
  revert w. induction done as [|r0 done IH]; intros w Hdone Hrow.
  - cbn in Hdone. injection Hdone as <-.
    rewrite app_nil_l, ingest_loop_cons, Hrow. reflexivity.
  - rewrite <- app_comm_cons, ingest_loop_cons.
    rewrite ingest_loop_cons in Hdone.
    destruct (ingest_row E model r0 w) as [[[]|e0] w0].
    + now apply IH.
    + discriminate Hdone.
Qed.

(** C6, as the code has it. The whole loop is inside one [try]: when a row
    raises (embedding or upsert), the rows after it are not processed, the
    handler prints the error and the script ends normally. The documents of
    the rows before stay in the collection and the failing row adds none. *)
Theorem row_failure_ends_batch (E : env) (model : string)
    (done : list (list (string * pyval))) (row : list (string * pyval))
    (rest : list (list (string * pyval))) (w0 w1 w' : world) (e : exn) :
  ingest_loop E model done (record_event (Print "Ingesting Data..." None) w0)
    = (Ok tt, w1) ->
  ingest_row E model row w1 = (Raise e, w') ->
  ingest E model (done ++ row :: rest) w0
    = (Ok tt, record_event (Print "Error while ingesting data" (Some e)) w')
  /\ ingest E model (done ++ row :: rest) w0 = ingest E model (done ++ [row]) w0
  /\ collection w' = collection w1.
Proof.
  intros Hdone Hrow.
  assert (Hrun : forall rest',
             ingest E model (done ++ row :: rest') w0
             = (Ok tt, record_event (Print "Error while ingesting data" (Some e)) w')).
  { intros rest'. unfold ingest, try_except, print.
    cbv [mbind M_bind].
    now rewrite (ingest_loop_abort E model done row rest' _ w1 w' e Hdone Hrow). }
  split; [apply Hrun|]. split; [now rewrite !Hrun|].
  destruct (ingest_row_effect E model row w1 _ w' Hrow)
    as [(e' & _ & Hcol & _)|(Hok & _)]; [exact Hcol|discriminate Hok].
Qed.

Lemma row_failure_ends_batch_witness :
  let w1 := snd (ingest_loop env_third_fails EMBEDDING_MODEL (take 2 five_films)
                   (record_event (Print "Ingesting Data..." None) world0)) in
  let w' := snd (ingest_row env_third_fails EMBEDDING_MODEL
                   (film "film 3" "plot 3") w1) in
  ingest env_third_fails EMBEDDING_MODEL five_films world0
    = (Ok tt, record_event
                (Print "Error while ingesting data" (Some EmbeddingServiceError)) w')
  /\ ingest env_third_fails EMBEDDING_MODEL five_films world0
     = ingest env_third_fails EMBEDDING_MODEL (take 3 five_films) world0
  /\ collection w' = collection w1.
Proof.
  intros w1 w'.
  apply (row_failure_ends_batch env_third_fails EMBEDDING_MODEL (take 2 five_films)
           (film "film 3" "plot 3") (drop 3 five_films) world0 w1 w'
           EmbeddingServiceError); vm_compute; reflexivity.
Defined.

(** C6, as stated, fails on the batch of five whose third row fails in the
    embedding call: two documents are stored, not four, and the overviews of
    rows four and five are never sent to the embedding service. *)
Lemma third_row_failure_stops_ingestion :
  let w := snd (ingest env_third_fails EMBEDDING_MODEL five_films world0) in
  fst (ingest env_third_fails EMBEDDING_MODEL five_films world0) = Ok tt
  /\ size (collection w) = 2
  /\ size (collection w) <> 4
  /\ embed_inputs (trace w) = [PyStr "plot 1"; PyStr "plot 2"; PyStr "plot 3"]
  /\ upsert_ids (trace w) = [example_hex 0; example_hex 1]
  /\ (PyStr "plot 4" ∉ embed_inputs (trace w))
  /\ (PyStr "plot 5" ∉ embed_inputs (trace w)).
Proof.
  vm_compute. repeat split; try discriminate.
  - intros H. repeat (apply elem_of_cons in H as [H|H]; [discriminate H|]).
    now apply elem_of_nil in H.
  - intros H. repeat (apply elem_of_cons in H as [H|H]; [discriminate H|]).
    now apply elem_of_nil in H.
Qed.











Example rerun_two_films :
  let w1 := snd (ingest_loop env_up EMBEDDING_MODEL (take 2 five_films) world0) in
  let w2 := snd (ingest_loop env_up EMBEDDING_MODEL (take 2 five_films) w1) in
  size (collection w1) = 2 /\ size (collection w2) = 4
  /\ upsert_ids (trace w2)
     = [example_hex 0; example_hex 1; example_hex 2; example_hex 3].
Proof. vm_compute. repeat split. Qed.

(** * Further properties of [create_filter] *)

(** A filter that was built has the conjuncts of its active arguments, in
    the order year, rating, title. *)
Lemma create_filter_ok (year_range rating search_in_title title f : pyval) :
  create_filter year_range rating search_in_title title = Ok f ->
  exists year_part,
    f = filter_of (year_part ++ rating_part rating
                     ++ title_part search_in_title title)
    /\ (truthy year_range = false /\ year_part = []
        \/ truthy year_range = true
           /\ exists lo hi, py_getitem year_range 0 = Ok lo
                            /\ py_getitem year_range 1 = Ok hi
                            /\ year_part = [year_query lo hi]).
Proof.
  unfold create_filter, rating_part, title_part, filter_of.
  destruct (truthy year_range) eqn:Hy.
  - destruct (py_getitem year_range 0) as [lo|e]; [|discriminate].
    destruct (py_getitem year_range 1) as [hi|e]; [|discriminate].
    cbn. intros [= <-]. exists [year_query lo hi]. split.
    + destruct (truthy rating), (truthy search_in_title); reflexivity.
    + right. split; [reflexivity|]. now exists lo, hi.
  - cbn. intros [= <-]. exists []. split.
    + destruct (truthy rating), (truthy search_in_title); reflexivity.
    + now left.
Qed.

(** X1. A year range that is a tuple of one element makes [create_filter]
    raise IndexError, whatever the other arguments; of a longer tuple only
    the first two elements are used. *)
Theorem year_range_tuple_lengths (x lo hi : pyval) (more : list pyval)
    (rating search_in_title title : pyval) :
  create_filter (PyTuple [x]) rating search_in_title title
    = Raise (IndexError "tuple")
  /\ create_filter (PyTuple (lo :: hi :: more)) rating search_in_title title
     = create_filter (PyTuple [lo; hi]) rating search_in_title title.
Proof. split; reflexivity. Qed.

(** X2. A filter that was built has one conjunct per active argument: the
    conjuncts' fields are a sublist of Released_Year, IMDB_Rating,
    Series_Title in that order, so no field occurs twice and there are at
    most three conjuncts. *)
Theorem conjuncts_follow_arguments (year_range rating search_in_title title f : pyval) :
  create_filter year_range rating search_in_title title = Ok f ->
  exists l,
    conjuncts f = Some l
    /\ length l = Nat.b2n (truthy year_range) + Nat.b2n (truthy rating)
                  + Nat.b2n (truthy search_in_title)
    /\ sublist (map field_of l)
               [Some "Released_Year"; Some "IMDB_Rating"; Some "Series_Title"].
Proof.
  intros Hf. destruct (create_filter_ok _ _ _ _ _ Hf) as (yp & -> & Hyp).
  eexists. split; [reflexivity|].
  unfold rating_part, title_part.
  destruct Hyp as [[-> ->]|(-> & lo & hi & _ & _ & ->)];
    destruct (truthy rating), (truthy search_in_title); cbn;
    (split; [reflexivity|]); repeat constructor.
Qed.

Lemma conjuncts_follow_arguments_witness :
  exists l,
    conjuncts (filter_of [year_query (PyInt 1990) (PyInt 2024);
                          title_query (PyStr "alien")]) = Some l
    /\ length l = Nat.b2n (truthy (PyTuple [PyInt 1990; PyInt 2024]))
                  + Nat.b2n (truthy (PyFloat float_0)) + Nat.b2n (truthy (PyBool true))
    /\ sublist (map field_of l)
               [Some "Released_Year"; Some "IMDB_Rating"; Some "Series_Title"].
Proof.
  apply (conjuncts_follow_arguments (PyTuple [PyInt 1990; PyInt 2024])
           (PyFloat float_0) (PyBool true) (PyStr "alien")).
  reflexivity.
Defined.

(** X3. Only the year range can make [create_filter] fail: a failure is the
    failure of [year_range[0]] or [year_range[1]] on a truthy year range,
    and it is the same for every rating, title flag and title. *)
Theorem failure_comes_from_year_range (year_range rating search_in_title title : pyval)
    (e : exn) :
  create_filter year_range rating search_in_title title = Raise e ->
  truthy year_range = true
  /\ (py_getitem year_range 0 = Raise e
      \/ (exists lo, py_getitem year_range 0 = Ok lo)
         /\ py_getitem year_range 1 = Raise e)
  /\ forall rating' search_in_title' title',
       create_filter year_range rating' search_in_title' title' = Raise e.
Proof.
  unfold create_filter. destruct (truthy year_range); [|discriminate].
  destruct (py_getitem year_range 0) as [lo|e0].
  - destruct (py_getitem year_range 1) as [hi|e1]; [discriminate|].
    cbn. intros [= <-]. split; [reflexivity|]. split; [|reflexivity].
    right. split; [now exists lo|reflexivity].
  - cbn. intros [= <-]. split; [reflexivity|]. split; [now left|reflexivity].
Qed.

Lemma failure_comes_from_year_range_witness :
  truthy (PyInt 1990) = true
  /\ (py_getitem (PyInt 1990) 0 = Raise TypeError
      \/ (exists lo, py_getitem (PyInt 1990) 0 = Ok lo)
         /\ py_getitem (PyInt 1990) 1 = Raise TypeError)
  /\ forall rating' search_in_title' title',
       create_filter (PyInt 1990) rating' search_in_title' title' = Raise TypeError.
Proof.
  apply (failure_comes_from_year_range (PyInt 1990) (PyFloat float_7_5) (PyBool false)
           (PyStr "alien") TypeError).
  reflexivity.
Defined.

(** * Further properties of [search_couchbase] *)

Lemma added_app (w w' : world) (evs : list event) :
  trace w' = trace w ++ evs -> added w w' = evs.
Proof. intros H. unfold added. rewrite H. apply drop_app_length. Qed.

(** What a search adds to the world: one embedding call, then at most one
    search, and nothing else. *)
Lemma search_couchbase_world (E : env) (index_name embedding_key search_text : string)
    (k : Z) (fields : list string) (search_options : pyval) (w : world) :
  let w' := snd (search_couchbase E index_name embedding_key search_text k fields
                   search_options w) in
  collection w' = collection w
  /\ draws w' = draws w
  /\ exists evs,
       trace w' = trace w ++ evs
       /\ (evs = [EmbeddingsCreate (PyStr search_text) EMBEDDING_MODEL]
           \/ exists v data,
                embeddings_reply E (length (trace w)) (PyStr search_text)
                                 EMBEDDING_MODEL = Ok (v :: data)
                /\ vector_query_check E embedding_key v k = None
                /\ evs = [EmbeddingsCreate (PyStr search_text) EMBEDDING_MODEL;
                          ScopeSearch index_name (SearchRequest embedding_key v k)
                                      (SearchOptions k fields search_options)]).
Proof.
  cbv zeta. rewrite search_couchbase_cases.
  destruct (embeddings_reply E (length (trace w)) (PyStr search_text) EMBEDDING_MODEL)
    as [[|v data]|e] eqn:Hemb; cbn [mbind result_bind].
  - cbn. split; [reflexivity|]. split; [reflexivity|].
    eexists. split; [reflexivity|]. now left.
  - change (seq_index "list" (v :: data) 0) with (Ok v : result pyval).
    cbv beta iota.
    destruct (vector_query_check E embedding_key v k) as [e|] eqn:Hvq.
    + cbn. split; [reflexivity|]. split; [reflexivity|].
      eexists. split; [reflexivity|]. now left.
    + cbn. split; [reflexivity|]. split; [reflexivity|].
      eexists. split; [now rewrite <- app_assoc|].
      right. exists v, data. split; [reflexivity|]. split; [exact Hvq|reflexivity].
  - cbn. split; [reflexivity|]. split; [reflexivity|].
    eexists. split; [reflexivity|]. now left.
Qed.

(** X4. A search writes nothing: whatever the replies, the collection and
    the count of uuid draws are as before, and the calls made are one
    embedding call followed by at most one search. *)
Theorem search_writes_nothing (E : env) (index_name embedding_key search_text : string)
    (k : Z) (fields : list string) (search_options : pyval) (w : world) :
  let w' := snd (search_couchbase E index_name embedding_key search_text k fields
                   search_options w) in
  collection w' = collection w
  /\ draws w' = draws w
  /\ trace w' = trace w ++ added w w'
  /\ embed_inputs (added w w') = [PyStr search_text]
  /\ upsert_ids (added w w') = []
  /\ searches (added w w') <= 1.
Proof.
  destruct (search_couchbase_world E index_name embedding_key search_text k fields
              search_options w) as (Hc & Hd & evs & Htr & Hevs).
  cbv zeta. split; [exact Hc|]. split; [exact Hd|].
  rewrite (added_app _ _ evs Htr). split; [exact Htr|].
  destruct Hevs as [->|(v & data & _ & _ & ->)]; cbn; repeat split; lia.
Qed.

(** X5. A response of the embedding service without any embedding makes
    [response.data[0]] raise IndexError: a search ends with that error
    before the store is called, and a row of the ingestion ends with it
    before an id is drawn or anything is upserted. *)
Theorem empty_embedding_response (E : env) (model : string)
    (index_name embedding_key search_text : string) (k : Z) (fields : list string)
    (search_options : pyval) (row : list (string * pyval)) (overview : pyval)
    (w : world) :
  (embeddings_reply E (length (trace w)) (PyStr search_text) EMBEDDING_MODEL = Ok [] ->
   search_couchbase E index_name embedding_key search_text k fields search_options w
   = (Raise (IndexError "list"),
      record_event (EmbeddingsCreate (PyStr search_text) EMBEDDING_MODEL) w))
  /\ (dict_get row "Overview" = Some overview ->
      embeddings_reply E (length (trace w)) overview model = Ok [] ->
      ingest_row E model row w
      = (Raise (IndexError "list"), record_event (EmbeddingsCreate overview model) w)).
Proof.
  split.
  - intros Hemb. rewrite search_couchbase_cases, Hemb. reflexivity.
  - intros Hov Hemb. rewrite ingest_row_cases. unfold dict_item. rewrite Hov.
    cbv zeta. rewrite Hemb. reflexivity.
Qed.

Lemma empty_embedding_response_witness :
  search_couchbase env_empty_reply "movies" "Overview_embedding" "space adventure" 5
                   ["*"] (PyDict []) world0
  = (Raise (IndexError "list"),
     record_event (EmbeddingsCreate (PyStr "space adventure") EMBEDDING_MODEL) world0)
  /\ ingest_row env_empty_reply EMBEDDING_MODEL (film "film 1" "plot 1") world0
     = (Raise (IndexError "list"),
        record_event (EmbeddingsCreate (PyStr "plot 1") EMBEDDING_MODEL) world0).
Proof.
  split.
  - apply (empty_embedding_response env_empty_reply EMBEDDING_MODEL "movies"
             "Overview_embedding" "space adventure" 5 ["*"] (PyDict [])
             (film "film 1" "plot 1") (PyStr "plot 1") world0).
    reflexivity.
  - apply (proj2 (empty_embedding_response env_empty_reply EMBEDDING_MODEL "movies"
                    "Overview_embedding" "space adventure" 5 ["*"] (PyDict [])
                    (film "film 1" "plot 1") (PyStr "plot 1") world0));
      reflexivity.
Defined.

(** X6. Whatever search reaches the store was built from the arguments as
    they were given: the index name, the embedding key, the first embedding
    of the service's reply as vector, k both as the number of candidates and
    as the limit, the fields, and the search options as raw options. *)
Theorem search_request_forwarded (E : env)
    (index_name embedding_key search_text : string) (k : Z) (fields : list string)
    (raw : pyval) (w : world)
    (index_name' : string) (req : search_request) (opts : search_options) :
  ScopeSearch index_name' req opts
    ∈ added w (snd (search_couchbase E index_name embedding_key search_text k fields
                      raw w)) ->
  exists v data,
    embeddings_reply E (length (trace w)) (PyStr search_text) EMBEDDING_MODEL
      = Ok (v :: data)
    /\ index_name' = index_name
    /\ req = SearchRequest embedding_key v k
    /\ opts = SearchOptions k fields raw.
Proof.
  destruct (search_couchbase_world E index_name embedding_key search_text k fields
              raw w) as (_ & _ & evs & Htr & Hevs).
  cbv zeta in Htr. rewrite (added_app _ _ evs Htr).
  destruct Hevs as [->|(v & data & Hemb & _ & ->)]; intros Hin.
  - apply list_elem_of_singleton in Hin. discriminate Hin.
  - apply elem_of_cons in Hin as [Hin|Hin]; [discriminate Hin|].
    apply list_elem_of_singleton in Hin. injection Hin as -> -> ->.
    now exists v, data.
Qed.

Lemma search_request_forwarded_witness :
  exists v data,
    embeddings_reply env_up (length (trace world0)) (PyStr "space adventure")
                     EMBEDDING_MODEL = Ok (v :: data)
    /\ "movies" = "movies"
    /\ SearchRequest "Overview_embedding" example_vector 5
       = SearchRequest "Overview_embedding" v 5
    /\ SearchOptions 5 ["*"] (filter_of [])
       = SearchOptions 5 ["*"] (filter_of []).
Proof.
  apply (search_request_forwarded env_up "movies" "Overview_embedding"
           "space adventure" 5 ["*"] (filter_of []) world0 "movies"
           (SearchRequest "Overview_embedding" example_vector 5)
           (SearchOptions 5 ["*"] (filter_of []))).
  vm_compute. apply elem_of_cons. right. apply elem_of_cons. now left.
Defined.

(** * The search on submit *)

(** X7. For all values of the widgets, a run with Submit pressed does
    what a search with the submitted filter does: [create_filter] does not
    fail on a pair of years, and its two calls give the same filter. With
    the filters enabled that filter has the year range first, then the
    rating if it is not zero, then the title phrase if title search is on;
    with the filters disabled the raw options are the empty dictionary, with
    no conjunct list at all. Any search that reaches the store has that
    filter as raw options and the count as limit, the text embedded is the
    text of the input box, and with title search on the same text is the
    phrase of the filter's last conjunct. *)
Theorem submit_search_with_filters (E : env) (index_name : string)
    (enable_filters : bool) (year_range : Z * Z) (rating : spec_float)
    (search_in_title show_filter : bool) (text : string) (no_of_results : Z)
    (w : world) :
  let raw := submitted_filter enable_filters year_range rating search_in_title text in
  let run := search_couchbase E index_name "Overview_embedding" text no_of_results
                              ["*"] raw w in
  submit_search E index_name enable_filters year_range rating search_in_title
                show_filter text no_of_results w
  = (match fst run with
     | Ok results =>
         Ok (if enable_filters && show_filter then Some raw else None, results)
     | Raise e => Raise e
     end, snd run)
  /\ (forall index_name' req opts,
        ScopeSearch index_name' req opts
          ∈ added w (snd (submit_search E index_name enable_filters year_range rating
                            search_in_title show_filter text no_of_results w)) ->
        index_name' = index_name
        /\ opt_raw opts = raw
        /\ opt_limit opts = no_of_results
        /\ vq_num_candidates req = no_of_results
        /\ vq_field req = "Overview_embedding")
  /\ embed_inputs
       (added w (snd (submit_search E index_name enable_filters year_range rating
                        search_in_title show_filter text no_of_results w)))
     = [PyStr text]
  /\ (enable_filters = true -> search_in_title = true ->
      exists l, conjuncts raw = Some (l ++ [title_query (PyStr text)]))
  /\ (enable_filters = false -> raw = PyDict [] /\ conjuncts raw = None).
Proof.
  cbv zeta.
  assert (Hrun :
    submit_search E index_name enable_filters year_range rating search_in_title
                  show_filter text no_of_results w
    = (match fst (search_couchbase E index_name "Overview_embedding" text
                    no_of_results ["*"]
                    (submitted_filter enable_filters year_range rating
                       search_in_title text) w) with
       | Ok results =>
           Ok (if enable_filters && show_filter
               then Some (submitted_filter enable_filters year_range rating
                            search_in_title text)
               else None, results)
       | Raise e => Raise e
       end,
       snd (search_couchbase E index_name "Overview_embedding" text no_of_results
              ["*"] (submitted_filter enable_filters year_range rating
                       search_in_title text) w))).
  { unfold submit_search, submitted_filter. destruct enable_filters.
    - rewrite create_filter_tuple. cbv [mbind M_bind mret M_ret lift].
      destruct (search_couchbase E index_name "Overview_embedding" text
                  no_of_results ["*"] _ w) as [[results|e] w'];
        destruct show_filter; reflexivity.
    - cbv [mbind M_bind mret M_ret lift].
      destruct (search_couchbase E index_name "Overview_embedding" text
                  no_of_results ["*"] _ w) as [[results|e] w']; reflexivity. }
  split; [exact Hrun|]. rewrite Hrun. cbn [snd].
  destruct (search_couchbase_world E index_name "Overview_embedding" text
              no_of_results ["*"]
              (submitted_filter enable_filters year_range rating search_in_title text)
              w) as (_ & _ & evs & Htr & Hevs).
  cbv zeta in Htr. rewrite (added_app _ _ evs Htr).
  split; [|split; [|split]].
  - intros idx req opts Hin.
    destruct Hevs as [->|(v & data & _ & _ & ->)].
    { apply list_elem_of_singleton in Hin. discriminate Hin. }
    apply elem_of_cons in Hin as [Hin|Hin]; [discriminate Hin|].
    apply list_elem_of_singleton in Hin. injection Hin as -> -> ->.
    repeat split.
  - destruct Hevs as [->|(v & data & _ & _ & ->)]; reflexivity.
  - intros -> ->. unfold submitted_filter, title_part. cbn [truthy].
    exists (year_query (PyInt (fst year_range)) (PyInt (snd year_range))
              :: rating_part (PyFloat rating)).
    reflexivity.
  - intros ->. split; reflexivity.
Qed.

Lemma submit_search_with_filters_witness :
  ("movies" = "movies"
   /\ opt_raw (SearchOptions 5 ["*"]
                 (filter_of [year_query (PyInt 1990) (PyInt 2024);
                             title_query (PyStr "alien")]))
      = submitted_filter true (1990, 2024)%Z float_0 true "alien"
   /\ opt_limit (SearchOptions 5 ["*"]
                   (filter_of [year_query (PyInt 1990) (PyInt 2024);
                               title_query (PyStr "alien")])) = 5%Z
   /\ vq_num_candidates (SearchRequest "Overview_embedding" example_vector 5) = 5%Z
   /\ vq_field (SearchRequest "Overview_embedding" example_vector 5)
      = "Overview_embedding")
  /\ (exists l,
        conjuncts (submitted_filter true (1990, 2024)%Z float_0 true "alien")
        = Some (l ++ [title_query (PyStr "alien")]))
  /\ submitted_filter false (1990, 2024)%Z float_0 true "alien" = PyDict [].
Proof.
  split; [|split].
  - apply (proj1 (proj2 (submit_search_with_filters env_up "movies" true
                           (1990, 2024)%Z float_0 true false "alien" 5 world0))
             "movies" (SearchRequest "Overview_embedding" example_vector 5)
             (SearchOptions 5 ["*"]
                (filter_of [year_query (PyInt 1990) (PyInt 2024);
                            title_query (PyStr "alien")]))).
    vm_compute. apply elem_of_cons. right. apply elem_of_cons. now left.
  - apply (proj1 (proj2 (proj2 (proj2 (submit_search_with_filters env_up "movies"
             true (1990, 2024)%Z float_0 true false "alien" 5 world0))))); reflexivity.
  - apply (proj2 (proj2 (proj2 (proj2 (submit_search_with_filters env_up "movies"
             false (1990, 2024)%Z float_0 true false "alien" 5 world0)))) eq_refl).
Defined.

Example submit_with_title_search :
  added world0
        (snd (submit_search env_up "movies" true (1990, 2024)%Z float_0 true true
                "alien" 5 world0))
  = [EmbeddingsCreate (PyStr "alien") EMBEDDING_MODEL;
     ScopeSearch "movies" (SearchRequest "Overview_embedding" example_vector 5)
       (SearchOptions 5 ["*"]
          (filter_of [year_query (PyInt 1990) (PyInt 2024);
                      title_query (PyStr "alien")]))].
Proof. reflexivity. Qed.

(** * Further properties of the ingestion *)

Lemma dict_get_set_eq (d : list (string * pyval)) (k : string) (v : pyval) :
  dict_get (dict_set d k v) k = Some v.
Proof.
  induction d as [|[k' v'] d IH]; cbn.
  - now rewrite String.eqb_refl.
  - destruct (String.eqb k' k) eqn:Hk; cbn.
    + now rewrite String.eqb_refl.
    + now rewrite Hk.
Qed.

Lemma dict_get_set_ne (d : list (string * pyval)) (k k' : string) (v : pyval) :
  k <> k' -> dict_get (dict_set d k v) k' = dict_get d k'.
Proof.
  intros Hne. induction d as [|[k0 v0] d IH]; cbn.
  - apply String.eqb_neq in Hne. now rewrite Hne.
  - destruct (String.eqb k0 k) eqn:Hk; cbn.
    + apply String.eqb_eq in Hk. subst k0.
      apply String.eqb_neq in Hne. now rewrite Hne.
    + now rewrite IH.
Qed.

(** X9. A row without an "Overview" ends the loop with KeyError before any
    service is called: nothing is embedded, no id is drawn, nothing is
    stored, and the rows after it are not looked at. *)
Theorem row_without_overview (E : env) (model : string) (row : list (string * pyval))
    (rest : list (list (string * pyval))) (w : world) :
  dict_get row "Overview" = None ->
  ingest_loop E model (row :: rest) w = (Raise (KeyError "Overview"), w).
Proof.
  intros Hov. rewrite ingest_loop_cons, ingest_row_cases.
  unfold dict_item. now rewrite Hov.
Qed.

Lemma row_without_overview_witness :
  ingest_loop env_up EMBEDDING_MODEL ([("Series_Title", PyStr "film 0")] :: five_films)
              world0 = (Raise (KeyError "Overview"), world0).
Proof.
  apply (row_without_overview env_up EMBEDDING_MODEL
           [("Series_Title", PyStr "film 0")] five_films world0).
  reflexivity.
Defined.

(** X10. The document stored for a row is under the id just drawn; it has,
    under "Overview_embedding", the first embedding the service returned for
    that row's own "Overview", and under every other key what the row has. *)
Theorem stored_document_fields (E : env) (model : string)
    (row : list (string * pyval)) (w w' : world) :
  ingest_row E model row w = (Ok tt, w') ->
  exists overview v data doc,
    dict_get row "Overview" = Some overview
    /\ embeddings_reply E (length (trace w)) overview model = Ok (v :: data)
    /\ collection w' !! uuid4_hex E (draws w) = Some (PyDict doc)
    /\ dict_get doc "Overview_embedding" = Some v
    /\ forall k, k <> "Overview_embedding" -> dict_get doc k = dict_get row k.
Proof.
  rewrite ingest_row_cases. unfold dict_item.
  destruct (dict_get row "Overview") as [overview|]; [|discriminate].
  cbv zeta.
  destruct (embeddings_reply E (length (trace w)) overview model)
    as [[|v data]|e] eqn:Hemb; try discriminate.
  change (_ ← Ok (v :: data); seq_index "list" _ 0) with (Ok v : result pyval).
  cbv beta iota.
  destruct (upsert_reply _ _ _ _) as [e|]; [discriminate|].
  intros [= <-]. cbn [collection].
  exists overview, v, data, (dict_set row "Overview_embedding" v).
  split; [reflexivity|]. split; [exact Hemb|].
  split; [apply lookup_insert_eq|].
  split; [apply dict_get_set_eq|].
  intros k Hk. apply dict_get_set_ne. congruence.
Qed.

Lemma stored_document_fields_witness :
  exists overview v data doc,
    dict_get (film "film 1" "plot 1") "Overview" = Some overview
    /\ embeddings_reply env_up (length (trace world0)) overview EMBEDDING_MODEL
       = Ok (v :: data)
    /\ collection (snd (ingest_row env_up EMBEDDING_MODEL (film "film 1" "plot 1")
                          world0))
         !! uuid4_hex env_up (draws world0) = Some (PyDict doc)
    /\ dict_get doc "Overview_embedding" = Some v
    /\ forall k, k <> "Overview_embedding"
                 -> dict_get doc k = dict_get (film "film 1" "plot 1") k.
Proof.
  apply (stored_document_fields env_up EMBEDDING_MODEL (film "film 1" "plot 1") world0).
  vm_compute. reflexivity.
Defined.

(** X11. If every document of the collection has an "Overview_embedding",
    so has every document after a run of the loop, however the run ends. *)
Theorem embeddings_stay_present (E : env) (model : string)
    (rows : list (list (string * pyval))) (w w' : world) (r : result unit) :
  map_Forall (fun _ doc => is_Some (entry doc "Overview_embedding")) (collection w) ->
  ingest_loop E model rows w = (r, w') ->
  map_Forall (fun _ doc => is_Some (entry doc "Overview_embedding")) (collection w').
Proof.
  revert w. induction rows as [|row rest IH]; intros w Hall Hrun.
  - cbn in Hrun. now injection Hrun as <- <-.
  - rewrite ingest_loop_cons in Hrun.
    destruct (ingest_row E model row w) as [r1 w1] eqn:Hrow.
    destruct (ingest_row_effect E model row w r1 w1 Hrow)
      as [(e & -> & Hcol & _)|(-> & _ & embedding & Hcol)].
    + injection Hrun as <- <-. now rewrite Hcol.
    + apply (IH w1); [|exact Hrun]. rewrite Hcol.
      apply map_Forall_insert_2; [|exact Hall].
      cbn. rewrite dict_get_set_eq. now eexists.
Qed.

Lemma embeddings_stay_present_witness :
  map_Forall (fun _ doc => is_Some (entry doc "Overview_embedding"))
             (collection (snd (ingest_loop env_third_fails EMBEDDING_MODEL five_films
                                 world0))).
Proof.
  apply (embeddings_stay_present env_third_fails EMBEDDING_MODEL five_films world0 _
           (fst (ingest_loop env_third_fails EMBEDDING_MODEL five_films world0))).
  - apply map_Forall_empty.
  - apply surjective_pairing.
Defined.

Lemma ingest_row_up (E : env) (model : string) (row : list (string * pyval))
    (w : world) :
  services_up E ->
  has_overview row ->
  exists w' overview doc,
    ingest_row E model row w = (Ok tt, w')
    /\ dict_get row "Overview" = Some overview
    /\ draws w' = S (draws w)
    /\ trace w' = trace w ++ [EmbeddingsCreate overview model; Uuid4;
                              Upsert (uuid4_hex E (draws w)) doc].
Proof.
  intros [Hemb Hups] [overview Hov].
  rewrite ingest_row_cases. unfold dict_item. rewrite Hov. cbv zeta.
  destruct (Hemb (length (trace w)) overview model) as (v & data & ->).
  change (_ ← Ok (v :: data); seq_index "list" _ 0) with (Ok v : result pyval).
  cbv beta iota. rewrite Hups.
  eexists _, overview, _. split; [reflexivity|]. split; [reflexivity|].
  split; [reflexivity|]. cbn. now rewrite <- !app_assoc.
Qed.

Lemma ingest_loop_up (E : env) (model : string) (rows : list (list (string * pyval))) :
  services_up E ->
  Forall has_overview rows ->
  forall w,
    exists w' evs,
      ingest_loop E model rows w = (Ok tt, w')
      /\ draws w' = draws w + length rows
      /\ trace w' = trace w ++ evs
      /\ length evs = 3 * length rows
      /\ embed_inputs evs = omap (fun row => dict_get row "Overview") rows
      /\ upsert_ids evs = map (fun i => uuid4_hex E (draws w + i)) (seq 0 (length rows)).
Proof.
  intros Hup Hrows. induction Hrows as [|row rest Hrow Hrest IH]; intros w.
  - exists w, []. cbn. rewrite app_nil_r. repeat split; lia.
  - destruct (ingest_row_up E model row w Hup Hrow)
      as (w1 & overview & doc & Hrun1 & Hov & Hd1 & Htr1).
    destruct (IH w1) as (w' & evs & Hrun & Hd & Htr & Hlen & Hin & Hids).
    exists w', ([EmbeddingsCreate overview model; Uuid4;
                 Upsert (uuid4_hex E (draws w)) doc] ++ evs).
    rewrite ingest_loop_cons, Hrun1.
    split; [exact Hrun|]. split; [cbn; lia|].
    split; [now rewrite Htr, Htr1, <- app_assoc|].
    split; [rewrite length_app, Hlen; cbn; lia|].
    split.
    + unfold embed_inputs in *. rewrite omap_app, Hin. cbn. now rewrite Hov.
    + unfold upsert_ids in *. rewrite omap_app, Hids. cbn.
      rewrite Nat.add_0_r. f_equal. rewrite <- seq_shift, map_map.
      apply map_ext. intros i. f_equal. lia.
Qed.

(** X12. When every row has an "Overview" and the services answer every
    call, the ingestion processes the whole batch and prints no error: for
    each row, in order, it embeds the row's overview, draws one id and
    upserts under it, three events a row after the opening line. *)
Theorem ingest_whole_batch (E : env) (model : string)
    (data_in_dict : list (list (string * pyval))) (w : world) :
  services_up E ->
  Forall has_overview data_in_dict ->
  exists w' evs,
    ingest E model data_in_dict w = (Ok tt, w')
    /\ draws w' = draws w + length data_in_dict
    /\ trace w' = trace w ++ Print "Ingesting Data..." None :: evs
    /\ length evs = 3 * length data_in_dict
    /\ embed_inputs evs = omap (fun row => dict_get row "Overview") data_in_dict
    /\ upsert_ids evs
       = map (fun i => uuid4_hex E (draws w + i)) (seq 0 (length data_in_dict)).
Proof.
  intros Hup Hrows.
  destruct (ingest_loop_up E model data_in_dict Hup Hrows
              (record_event (Print "Ingesting Data..." None) w))
    as (w' & evs & Hrun & Hd & Htr & Hlen & Hin & Hids).
  exists w', evs. unfold ingest, try_except, print. cbv [mbind M_bind].
  rewrite Hrun. split; [reflexivity|]. split; [exact Hd|].
  split; [rewrite Htr; cbn; now rewrite <- app_assoc|].
  split; [exact Hlen|]. split; [exact Hin|exact Hids].
Qed.

Lemma services_up_env_up : services_up env_up.
Proof. split; intros; cbn; eauto. Qed.

Lemma five_films_have_overview : Forall has_overview five_films.
Proof. repeat constructor; now eexists. Qed.

Lemma ingest_whole_batch_witness :
  exists w' evs,
    ingest env_up EMBEDDING_MODEL five_films world0 = (Ok tt, w')
    /\ draws w' = draws world0 + length five_films
    /\ trace w' = trace world0 ++ Print "Ingesting Data..." None :: evs
    /\ length evs = 3 * length five_films
    /\ embed_inputs evs = omap (fun row => dict_get row "Overview") five_films
    /\ upsert_ids evs
       = map (fun i => uuid4_hex env_up (draws world0 + i))
             (seq 0 (length five_films)).
Proof.
  apply (ingest_whole_batch env_up EMBEDDING_MODEL five_films world0
           services_up_env_up five_films_have_overview).
Defined.

(** * The environment of the ingestion *)

Lemma ingest_checks_all (environ : gmap string string) :
  ingest_checks environ = check_all environ ingest_required.
Proof.
  unfold ingest_checks, ingest_required, check_all.
  repeat (destruct (check_environment_variable environ _) as [[]|?];
          cbn [mbind result_bind]; try reflexivity).
Qed.

Lemma check_all_ok (environ : gmap string string) (names : list string) :
  check_all environ names = Ok tt
  <-> Forall (fun name => is_Some (environ !! name)) names.
Proof.
  induction names as [|name names IH]; cbn.
  - split; [constructor|reflexivity].
  - unfold check_environment_variable at 1.
    destruct (environ !! name) as [v|] eqn:Hn; cbn.
    + rewrite IH. split.
      * intros H. constructor; [now exists v|exact H].
      * now inversion 1.
    + split; [discriminate|]. inversion 1 as [|? ? [v Hv]]. congruence.
Qed.

Lemma check_all_first_missing (environ : gmap string string)
    (pre : list string) (name : string) (post : list string) :
  Forall (fun n => is_Some (environ !! n)) pre ->
  environ !! name = None ->
  check_all environ (pre ++ name :: post) = Raise (ValueError name).
Proof.
  intros Hpre Hname. induction Hpre as [|n pre [v Hv] _ IH]; cbn.
  - unfold check_environment_variable. now rewrite Hname.
  - unfold check_environment_variable at 1. now rewrite Hv.
Qed.

(** X13. The checks at the start of the ingestion pass exactly when the
    seven variables OPENAI_API_KEY, DB_CONN_STR, DB_USERNAME, DB_PASSWORD,
    DB_BUCKET, DB_SCOPE and DB_COLLECTION are set; no other variable is
    needed. When they fail, the ValueError names the first of the seven, in
    that order, that is not set. *)
Theorem ingest_checks_required (environ : gmap string string) :
  (ingest_checks environ = Ok tt
   <-> Forall (fun name => is_Some (environ !! name)) ingest_required)
  /\ forall pre name post,
       ingest_required = pre ++ name :: post ->
       Forall (fun n => is_Some (environ !! n)) pre ->
       environ !! name = None ->
       ingest_checks environ = Raise (ValueError name).
Proof.
  rewrite ingest_checks_all. split.
  - apply check_all_ok.
  - intros pre name post -> Hpre Hname. now apply check_all_first_missing.
Qed.

Lemma ingest_checks_required_witness :
  ingest_checks (delete "DB_BUCKET" (delete "DB_SCOPE" example_environ))
  = Raise (ValueError "DB_BUCKET").
Proof.
  apply (proj2 (ingest_checks_required
                  (delete "DB_BUCKET" (delete "DB_SCOPE" example_environ)))
           ["OPENAI_API_KEY"; "DB_CONN_STR"; "DB_USERNAME"; "DB_PASSWORD"]
           "DB_BUCKET" ["DB_SCOPE"; "DB_COLLECTION"]).
  - reflexivity.
  - repeat constructor; vm_compute; eauto.
  - vm_compute. reflexivity.
Defined.

(** X14. The model of the ingestion is the value of EMBEDDING_MODEL when
    that is set and not empty, and the default otherwise; it is never empty.
    The search always uses the default, so both use the same model exactly
    when the variable is unset, empty or equal to the default. *)
Theorem ingest_model_setting (environ : gmap string string) :
  ingest_embedding_model environ <> ""
  /\ (forall m, environ !! "EMBEDDING_MODEL" = Some m -> m <> "" ->
                ingest_embedding_model environ = m)
  /\ (ingest_embedding_model environ = EMBEDDING_MODEL
      <-> environ !! "EMBEDDING_MODEL" = None
          \/ environ !! "EMBEDDING_MODEL" = Some ""
          \/ environ !! "EMBEDDING_MODEL" = Some EMBEDDING_MODEL).
Proof.
  unfold ingest_embedding_model.
  destruct (environ !! "EMBEDDING_MODEL") as [m|]; cbn [truthy].
  - destruct (String.eqb m "") eqn:Hm; cbn [negb].
    + apply String.eqb_eq in Hm. subst m.
      split; [discriminate|]. split; [now intros m [= <-]|].
      split; [now right; left|reflexivity].
    + apply String.eqb_neq in Hm.
      split; [exact Hm|]. split; [now intros m' [= <-]|].
      split.
      * intros ->. now right; right.
      * intros [H|[H|H]]; [discriminate H| |]; now injection H.
  - split; [discriminate|]. split; [discriminate|].
    split; [now left|reflexivity].
Qed.

Lemma ingest_model_setting_witness :
  ingest_embedding_model (<["EMBEDDING_MODEL" := "text-embedding-3-large"]> example_environ)
  = "text-embedding-3-large".
Proof.
  apply (proj1 (proj2 (ingest_model_setting
           (<["EMBEDDING_MODEL" := "text-embedding-3-large"]> example_environ)))).
  - vm_compute. reflexivity.
  - discriminate.
Defined.

(** * Properties of [cleanup_poster_url] *)

Lemma str_app_cons (c : Ascii.ascii) (a b : string) :
  String c a +:+ b = String c (a +:+ b).
Proof. reflexivity. Qed.

Lemma str_app_assoc (a b c : string) : (a +:+ b) +:+ c = a +:+ (b +:+ c).
Proof.
  induction a as [|x a IH]; [reflexivity|].
  rewrite !str_app_cons. now f_equal.
Qed.

Lemma str_length_app (a b : string) :
  String.length (a +:+ b) = String.length a + String.length b.
Proof.
  induction a as [|x a IH]; [reflexivity|].
  rewrite str_app_cons. cbn. now f_equal.
Qed.

Lemma prefix_app (sep rest : string) : String.prefix sep (sep +:+ rest) = true.
Proof.
  induction sep as [|c sep IH]; [now destruct rest|].
  rewrite str_app_cons. cbn. now destruct (Ascii.ascii_dec c c).
Qed.

Lemma prefix_inv (sep s : string) :
  String.prefix sep s = true -> exists rest, s = sep +:+ rest.
Proof.
  revert s. induction sep as [|c sep IH]; intros s H.
  - now exists s.
  - destruct s as [|b s]; [discriminate H|]. cbn in H.
    destruct (Ascii.ascii_dec c b) as [->|]; [|discriminate H].
    destruct (IH s H) as [rest ->]. now exists rest.
Qed.

Lemma prefix_shorter (sep x y : string) :
  String.prefix sep (x +:+ y) = true ->
  String.length sep <= String.length x ->
  String.prefix sep x = true.
Proof.
  revert x. induction sep as [|c sep IH]; intros x H Hlen.
  - now destruct x.
  - destruct x as [|b x]; [cbn in Hlen; lia|].
    rewrite str_app_cons in H. cbn in H |- *.
    destruct (Ascii.ascii_dec c b); [|discriminate H].
    apply IH; [exact H|cbn in Hlen; lia].
Qed.

Lemma split_from_skip (sep a rest : string) :
  split_from sep (String.length a) (a +:+ rest) = split_from sep 0 rest.
Proof.
  induction a as [|c a IH]; [reflexivity|].
  rewrite str_app_cons. cbn. exact IH.
Qed.

Lemma split_from_nonempty (sep : string) (s : string) (skip : nat) :
  split_from sep skip s <> [].
Proof.
  revert skip. induction s as [|c s IH]; intros skip; [discriminate|].
  cbn [split_from]. destruct skip as [|n]; [|apply IH].
  destruct (String.prefix sep (String c s)); [discriminate|].
  destruct (split_from sep 0 s); discriminate.
Qed.

(** The two equations of [split]: at a separator, and at any other place. *)
Lemma split_at_sep (c : Ascii.ascii) (sep' rest : string) :
  split (String c sep') (String c sep' +:+ rest)
  = "" :: split (String c sep') rest.
Proof.
  unfold split. rewrite str_app_cons. cbn [split_from].
  rewrite <- str_app_cons, prefix_app.
  cbn [String.length]. rewrite Nat.sub_succ, Nat.sub_0_r.
  now rewrite split_from_skip.
Qed.

Lemma split_no_sep_here (sep : string) (c : Ascii.ascii) (s piece : string)
    (pieces : list string) :
  String.prefix sep (String c s) = false ->
  split sep s = piece :: pieces ->
  split sep (String c s) = String c piece :: pieces.
Proof.
  unfold split. intros Hp Hs. cbn [split_from]. now rewrite Hp, Hs.
Qed.

Lemma join_cons_char (sep : string) (c : Ascii.ascii) (piece : string)
    (pieces : list string) :
  join sep (String c piece :: pieces) = String c (join sep (piece :: pieces)).
Proof. destruct pieces; reflexivity. Qed.

Lemma join_cons_nonempty (sep piece : string) (pieces : list string) :
  pieces <> [] -> join sep (piece :: pieces) = piece +:+ sep +:+ join sep pieces.
Proof. destruct pieces; [congruence|reflexivity]. Qed.

(** X15. Joining the pieces of a split with the separator gives the string
    back, for every string and every separator that is not empty. *)
Theorem join_split (sep s : string) :
  sep <> "" -> join sep (split sep s) = s.
Proof.
  intros Hsep. destruct sep as [|c0 sep']; [congruence|].
  remember (String.length s) as n eqn:Hn. revert s Hn.
  induction n as [n IH] using lt_wf_ind. intros s Hn.
  destruct s as [|c s]; [reflexivity|].
  destruct (String.prefix (String c0 sep') (String c s)) eqn:Hp.
  - destruct (prefix_inv _ _ Hp) as [rest Hrest]. rewrite Hrest.
    rewrite split_at_sep, join_cons_nonempty by apply split_from_nonempty.
    rewrite (IH (String.length rest)); [reflexivity| |reflexivity].
    rewrite Hn, Hrest, str_length_app. cbn. lia.
  - destruct (split (String c0 sep') s) as [|piece pieces] eqn:Hs.
    { now apply split_from_nonempty in Hs. }
    rewrite (split_no_sep_here _ _ _ _ _ Hp Hs), join_cons_char, <- Hs.
    f_equal. apply (IH (String.length s)); [|reflexivity].
    rewrite Hn. cbn. lia.
Qed.

Lemma join_split_witness :
  join "_AL_" (split "_AL_" example_poster) = example_poster.
Proof. apply (join_split "_AL_" example_poster). discriminate. Defined.

Lemma contains_cons (sep : string) (c : Ascii.ascii) (s : string) :
  contains sep (String c s) = String.prefix sep (String c s) || contains sep s.
Proof. reflexivity. Qed.

Lemma split_at_sep' (sep rest : string) :
  sep <> "" -> split sep (sep +:+ rest) = "" :: split sep rest.
Proof. destruct sep; [congruence|]. intros _. apply split_at_sep. Qed.

Lemma split_without_sep (sep s : string) :
  contains sep s = false -> split sep s = [s].
Proof.
  induction s as [|c s IH]; [reflexivity|].
  rewrite contains_cons. intros [Hp Hc]%orb_false_iff.
  now apply split_no_sep_here; [|apply IH].
Qed.

Lemma split_with_sep (sep s : string) :
  sep <> "" -> contains sep s = true ->
  exists p1 p2 ps, split sep s = p1 :: p2 :: ps.
Proof.
  intros Hsep. induction s as [|c s IH].
  - destruct sep; [congruence|discriminate].
  - rewrite contains_cons. intros H.
    destruct (String.prefix sep (String c s)) eqn:Hp.
    + destruct (prefix_inv _ _ Hp) as [rest ->].
      rewrite split_at_sep' by exact Hsep.
      destruct (split sep rest) as [|p2 ps] eqn:Hs.
      { now apply split_from_nonempty in Hs. }
      now exists "", p2, ps.
    + destruct (IH H) as (p1 & p2 & ps & Hs).
      exists (String c p1), p2, ps. now apply split_no_sep_here.
Qed.

(** The first piece ends at the first place where the separator is found. *)
Lemma split_first_piece (sep sep0 : string) (c : Ascii.ascii) (p rest : string) :
  sep = sep0 +:+ String c "" ->
  contains sep (p +:+ sep0) = false ->
  split sep (p +:+ sep +:+ rest) = p :: split sep rest.
Proof.
  intros Hsep0.
  assert (Hsep : sep <> "") by (subst sep; destruct sep0; discriminate).
  induction p as [|a p IH]; intros Hc.
  - change ("" +:+ sep +:+ rest) with (sep +:+ rest). now apply split_at_sep'.
  - rewrite str_app_cons, contains_cons in Hc.
    apply orb_false_iff in Hc as [Hp Hc].
    rewrite str_app_cons. apply split_no_sep_here; [|now apply IH].
    destruct (String.prefix sep (String a (p +:+ sep +:+ rest))) eqn:Hp';
      [|reflexivity].
    rewrite <- Hp. symmetry.
    apply (prefix_shorter sep (String a (p +:+ sep0)) (String c rest)).
    + rewrite str_app_cons, str_app_assoc. rewrite <- Hp'. f_equal. f_equal. f_equal.
      rewrite Hsep0. now rewrite str_app_assoc.
    + rewrite Hsep0. cbn [String.length]. rewrite !str_length_app. cbn. lia.
Qed.

Lemma cleanup_al_cases (poster_url : string) :
  (contains "_AL_" poster_url = false ->
   cleanup_poster_url poster_url = Raise (IndexError "list"))
  /\ (contains "_AL_" poster_url = true ->
      exists cleaned, cleanup_poster_url poster_url = Ok cleaned).
Proof.
  unfold cleanup_poster_url.
  destruct (split "_V1_" poster_url) as [|prefix pieces] eqn:Hv.
  { now apply split_from_nonempty in Hv. }
  split; intros Hal.
  - now rewrite (split_without_sep _ _ Hal).
  - destruct (split_with_sep "_AL_" poster_url ltac:(discriminate) Hal)
      as (p1 & p2 & ps & ->).
    now eexists.
Qed.

(** X16. [cleanup_poster_url] raises IndexError exactly for the links that
    do not contain "_AL_"; for every other link it returns a string. A link
    without "_V1_" is no error. *)
Theorem cleanup_needs_al (poster_url : string) :
  (contains "_AL_" poster_url = false <->
   cleanup_poster_url poster_url = Raise (IndexError "list"))
  /\ (contains "_AL_" poster_url = true <->
      exists cleaned, cleanup_poster_url poster_url = Ok cleaned).
Proof.
  destruct (cleanup_al_cases poster_url) as [Hno Hyes].
  destruct (contains "_AL_" poster_url).
  - destruct (Hyes eq_refl) as [cleaned Hc]. split; split; try discriminate.
    + rewrite Hc. discriminate.
    + now exists cleaned.
    + reflexivity.
  - specialize (Hno eq_refl). split; split; try reflexivity; try exact (fun _ => Hno).
    + discriminate.
    + rewrite Hno. intros [cleaned Hc]. discriminate Hc.
Qed.

Lemma cleanup_needs_al_witness :
  cleanup_poster_url "https://example.org/poster.jpg" = Raise (IndexError "list")
  /\ exists cleaned, cleanup_poster_url example_poster = Ok cleaned.
Proof.
  split.
  - apply (cleanup_needs_al "https://example.org/poster.jpg"). reflexivity.
  - apply (cleanup_needs_al example_poster). reflexivity.
Defined.

(** X17. For a link of the shape P _V1_ M _AL_ S, where "_V1_" is first
    found after P, "_AL_" is first found after M and S has no "_AL_", the
    result is P followed by S: the size part M goes, and so do both markers,
    "_V1_" included. *)
Theorem cleanup_of_poster_shape (P M S : string) :
  contains "_V1_" (P +:+ "_V1") = false ->
  contains "_AL_" ((P +:+ "_V1_" +:+ M) +:+ "_AL") = false ->
  contains "_AL_" S = false ->
  cleanup_poster_url (P +:+ "_V1_" +:+ M +:+ "_AL_" +:+ S) = Ok (P +:+ S).
Proof.
  intros Hv Ha Hs. unfold cleanup_poster_url.
  rewrite (split_first_piece "_V1_" "_V1" _ P (M +:+ "_AL_" +:+ S) eq_refl Hv).
  assert (Hurl : P +:+ "_V1_" +:+ M +:+ "_AL_" +:+ S
                 = (P +:+ "_V1_" +:+ M) +:+ "_AL_" +:+ S)
    by now rewrite !str_app_assoc.
  rewrite Hurl.
  rewrite (split_first_piece "_AL_" "_AL" _ (P +:+ "_V1_" +:+ M) S eq_refl Ha).
  now rewrite (split_without_sep _ _ Hs).
Qed.

Lemma cleanup_of_poster_shape_witness :
  cleanup_poster_url example_poster
  = Ok "https://m.media-amazon.com/images/M/MV5BMDFkYTc0MGEtZmNhMC00ZDIzLWFmNTEtODM1ZmRlYWMwMWFmXkEyXkFqcGdeQXVyMTMxODk2OTU@..jpg".
Proof.
  apply (cleanup_of_poster_shape
           "https://m.media-amazon.com/images/M/MV5BMDFkYTc0MGEtZmNhMC00ZDIzLWFmNTEtODM1ZmRlYWMwMWFmXkEyXkFqcGdeQXVyMTMxODk2OTU@."
           "UX67_CR0,0,67,98" ".jpg"); reflexivity.
Defined.

(** X18. For a link without "_V1_" nothing is cut: the result is the whole
    link followed by the piece after its first "_AL_". For a link
    Q _AL_ S where "_AL_" is first found after Q, that piece is S when S has
    no "_AL_", and the part of S before its first "_AL_" otherwise. *)
Theorem cleanup_without_v1 (Q S : string) :
  contains "_V1_" (Q +:+ "_AL_" +:+ S) = false ->
  contains "_AL_" (Q +:+ "_AL") = false ->
  (contains "_AL_" S = false ->
   cleanup_poster_url (Q +:+ "_AL_" +:+ S) = Ok ((Q +:+ "_AL_" +:+ S) +:+ S))
  /\ (forall S1 S2,
        S = S1 +:+ "_AL_" +:+ S2 ->
        contains "_AL_" (S1 +:+ "_AL") = false ->
        cleanup_poster_url (Q +:+ "_AL_" +:+ S) = Ok ((Q +:+ "_AL_" +:+ S) +:+ S1)).
Proof.
  intros Hv Ha. unfold cleanup_poster_url.
  rewrite (split_without_sep _ _ Hv).
  rewrite (split_first_piece "_AL_" "_AL" _ Q S eq_refl Ha).
  split.
  - intros Hs. now rewrite (split_without_sep _ _ Hs).
  - intros S1 S2 -> Hs1.
    now rewrite (split_first_piece "_AL_" "_AL" _ S1 S2 eq_refl Hs1).
Qed.

Lemma cleanup_without_v1_witness :
  cleanup_poster_url "https://example.org/poster_AL_.jpg"
  = Ok "https://example.org/poster_AL_.jpg.jpg"
  /\ cleanup_poster_url "https://example.org/poster_AL_.jpg_AL_x"
     = Ok "https://example.org/poster_AL_.jpg_AL_x.jpg".
Proof.
  split.
  - apply (cleanup_without_v1 "https://example.org/poster" ".jpg"); reflexivity.
  - apply (proj2 (cleanup_without_v1 "https://example.org/poster" ".jpg_AL_x"
                    eq_refl eq_refl) ".jpg" "x"); reflexivity.
Defined.

Example docstring_example_differs :
  cleanup_poster_url example_poster
  <> Ok "https://m.media-amazon.com/images/M/MV5BMDFkYTc0MGEtZmNhMC00ZDIzLWFmNTEtODM1ZmRlYWMwMWFmXkEyXkFqcGdeQXVyMTMxODk2OTU@._V1_.jpg".
Proof. vm_compute. discriminate. Qed.

(** * Properties of the display of the results *)

Lemma render_results_cons (doc : pyval * spec_float)
    (rest : list (pyval * spec_float)) (out : list ui_event) :
  render_results (doc :: rest) out
  = match render_result doc out with
    | (Ok _, out1) => render_results rest out1
    | (Raise e, out1) => (Raise e, out1)
    end.
Proof. reflexivity. Qed.

Lemma render_results_abort (done : list (pyval * spec_float))
    (bad : pyval * spec_float) (rest : list (pyval * spec_float))
    (out out1 out' : list ui_event) (e : exn) :
  render_results done out = (Ok tt, out1) ->
  render_result bad out1 = (Raise e, out') ->
  render_results (done ++ bad :: rest) out = (Raise e, out').
Proof.
  revert out. induction done as [|d0 done IH]; intros out Hdone Hbad.
  - cbn in Hdone. injection Hdone as <-.
    rewrite app_nil_l, render_results_cons, Hbad. reflexivity.
  - rewrite <- app_comm_cons, render_results_cons.
    rewrite render_results_cons in Hdone.
    destruct (render_result d0 out) as [[[]|e0] out0].
    + now apply IH.
    + discriminate Hdone.
Qed.

(** X19. A result whose poster link has no "_AL_" stops the display: its
    title and the two columns are shown, then IndexError is raised, and the
    results after it are not shown. *)
Theorem poster_without_al_stops_display (done : list (pyval * spec_float))
    (d : list (string * pyval)) (title : pyval) (url : string) (score : spec_float)
    (rest : list (pyval * spec_float)) (out out1 : list ui_event) :
  render_results done out = (Ok tt, out1) ->
  dict_get d "Series_Title" = Some title ->
  dict_get d "Poster_Link" = Some (PyStr url) ->
  contains "_AL_" url = false ->
  render_results (done ++ (PyDict d, score) :: rest) out
  = (Raise (IndexError "list"), out1 ++ [StHeader title; StColumns 2]).
Proof.
  intros Hdone Ht Hp Hal.
  apply (render_results_abort done _ rest out out1); [exact Hdone|].
  unfold render_result. cbv [mbind UI_bind ui_lift show py_subscript dict_item].
  rewrite Ht, Hp. cbn [cleanup_poster_value].
  rewrite (proj1 (cleanup_al_cases url) Hal).
  now rewrite <- app_assoc.
Qed.

Lemma poster_without_al_stops_display_witness :
  render_results
    ([(example_movie "Alien" example_poster, float_7_5)]
       ++ (example_movie "Solaris" "https://example.org/solaris.jpg", float_0)
       :: [(example_movie "Stalker" example_poster, float_0)]) []
  = (Raise (IndexError "list"),
     snd (render_results [(example_movie "Alien" example_poster, float_7_5)] [])
       ++ [StHeader (PyStr "Solaris"); StColumns 2]).
Proof.
  apply (poster_without_al_stops_display
           [(example_movie "Alien" example_poster, float_7_5)] _ (PyStr "Solaris")
           "https://example.org/solaris.jpg" float_0
           [(example_movie "Stalker" example_poster, float_0)] []);
    vm_compute; reflexivity.
Defined.

Lemma render_result_ok (doc : pyval * spec_float) (out : list ui_event) :
  renderable doc ->
  exists evs, render_result doc out = (Ok tt, out ++ evs) /\ length evs = 9.
Proof.
  destruct doc as [movie score].
  intros (d & url & Hd & [t Ht] & Hp & Hal & [o Ho] & [y Hy] & [r Hr] & [m Hm]).
  cbn in Hd. subst movie.
  destruct (proj2 (cleanup_al_cases url) Hal) as [cleaned Hc].
  unfold render_result. cbv [mbind UI_bind ui_lift show py_subscript dict_item].
  rewrite Ht, Hp, Ho, Hy, Hr, Hm. cbn [cleanup_poster_value]. rewrite Hc.
  eexists. rewrite <- !app_assoc. split; reflexivity.
Qed.

(** X20. When every result is a dictionary with the six fields read and a
    poster link containing "_AL_", the display shows all of them and ends
    without exception, nine elements a result. *)
Theorem display_of_renderable_results (results : list (pyval * spec_float))
    (out : list ui_event) :
  Forall renderable results ->
  exists evs,
    render_results results out = (Ok tt, out ++ evs)
    /\ length evs = 9 * length results.
Proof.
  intros Hall. revert out. induction Hall as [|doc rest Hdoc _ IH]; intros out.
  - exists []. now rewrite app_nil_r.
  - destruct (render_result_ok doc out Hdoc) as (evs1 & Hrun1 & Hlen1).
    destruct (IH (out ++ evs1)) as (evs & Hrun & Hlen).
    exists (evs1 ++ evs). rewrite render_results_cons, Hrun1, Hrun.
    split; [now rewrite app_assoc|].
    rewrite length_app, Hlen1, Hlen. cbn. lia.
Qed.

Lemma example_movie_renderable : renderable (example_movie "Alien" example_poster, float_7_5).
Proof.
  exists [("Series_Title", PyStr "Alien"); ("Poster_Link", PyStr example_poster);
          ("Overview", PyStr "plot"); ("Released_Year", PyInt 1979);
          ("IMDB_Rating", PyFloat float_7_5); ("Runtime", PyStr "117 min")],
         example_poster.
  repeat split; cbn; eauto.
Qed.

Lemma display_of_renderable_results_witness :
  exists evs,
    render_results [(example_movie "Alien" example_poster, float_7_5)] []
      = (Ok tt, [] ++ evs)
    /\ length evs = 9 * length [(example_movie "Alien" example_poster, float_7_5)].
Proof.
  apply (display_of_renderable_results
           [(example_movie "Alien" example_poster, float_7_5)] []).
  constructor; [exact example_movie_renderable|constructor].
Defined.
